(** * BaseballPress: the lineup extractor of [baseballpress.py]

    A shallow embedding of the extraction pipeline (document -> games ->
    teams -> players) and of the record flattener, followed by the
    properties of the specification that were checked against it.

    Conventions of the embedding.
    - A Python [str] is a list of Unicode code points ([list N]); [lit]
      turns an ASCII literal of the source into one.  Decimal digits,
      white space, line boundaries and upper-casing follow the Unicode
      tables of the interpreter (Unicode 14.0).  Lower-casing is used by
      the source only to look for an ASCII marker, and is modelled on the
      ASCII letters.
    - A Python [int] is a [Z]; [None] in an attribute that otherwise holds
      a value is [option]'s [None].
    - An uncaught exception is the [Raise] result of the [result] monad.
    - A record (a Python [dict] from field name to scalar) is a
      [gmap string pyval].
    - The markup is the tree BeautifulSoup builds; building it from text is
      the library's work and is not modelled. *)

From Stdlib Require Import ZArith Ascii String List Lia.
From stdpp Require Import base option list gmap strings.

(** ** Text *)

(** A Python [str]. *)
Abbreviation pystr := (list N).

(** The [str] of an ASCII literal. *)
Fixpoint lit (s : string) : pystr :=
  match s with
  | EmptyString => []
  | String c s' => N_of_ascii c :: lit s'
  end.

(** The code point of a one-character ASCII literal. *)
Definition ch (s : string) : N :=
  match s with
  | String c _ => N_of_ascii c
  | EmptyString => 0%N
  end.

Arguments lit : simpl never.
Arguments ch : simpl never.

(** ** Exceptions and results *)

(** The message of a [ValueError]: a text written out in full, or the
    message of [int], "invalid literal for int() with base 10: " followed
    by [repr] of the argument ([repr] itself is not modelled). *)
Inductive message : Type :=
| Text (s : string)
| InvalidLiteral (arg : pystr).

(** The exception classes the module can raise.  Only [ValueError] carries
    its message: it is the one class that the module raises itself
    ([DateGames.parse]) and that built-ins raise as well. *)
Inductive exn : Type :=
| ValueError (msg : message)
| TypeError
| AttributeError
| IndexError
| UnboundLocalError.

(** The class of an exception, what an [except] clause dispatches on. *)
Inductive exn_class : Type :=
| CValueError | CTypeError | CAttributeError | CIndexError | CUnboundLocalError.

Definition class_of (e : exn) : exn_class :=
  match e with
  | ValueError _ => CValueError
  | TypeError => CTypeError
  | AttributeError => CAttributeError
  | IndexError => CIndexError
  | UnboundLocalError => CUnboundLocalError
  end.

Inductive result (A : Type) : Type :=
| Ok (a : A)
| Raise (e : exn).
Arguments Ok {A} a.
Arguments Raise {A} e.

Global Instance result_ret : MRet result := fun A a => Ok a.

Global Instance result_bind : MBind result := fun A B k r =>
  match r with
  | Ok a => k a
  | Raise e => Raise e
  end.

(** [for x in xs: acc.append(f(x))], stopping at the first exception. *)
Fixpoint mapM {A B} (f : A -> result B) (xs : list A) : result (list B) :=
  match xs with
  | [] => Ok []
  | x :: xs' => y ← f x; ys ← mapM f xs'; Ok (y :: ys)
  end.

(** ** Python built-ins on [str] *)

Module Py.

(** *** Unicode tables *)

(** The code point of the digit zero of every run of ten decimal digits
    (the characters [str.isdecimal] accepts, which are those [\d]
    matches and [int] reads). *)
Definition decimal_zeros : list N :=
  [48; 1632; 1776; 1984; 2406; 2534; 2662; 2790; 2918; 3046; 3174; 3302;
   3430; 3558; 3664; 3792; 3872; 4160; 4240; 6112; 6160; 6470; 6608; 6784;
   6800; 6992; 7088; 7232; 7248; 42528; 43216; 43264; 43472; 43504; 43600;
   44016; 65296; 66720; 68912; 69734; 69872; 69942; 70096; 70384; 70736;
   70864; 71248; 71360; 71472; 71904; 72016; 72784; 73040; 73120; 92768;
   92864; 93008; 120782; 120792; 120802; 120812; 120822; 123200; 123632;
   125264; 130032]%N.

(** The characters of [str.isspace]. *)
Definition white_space : list N :=
  [9; 10; 11; 12; 13; 28; 29; 30; 31; 32; 133; 160; 5760; 8192; 8193; 8194;
   8195; 8196; 8197; 8198; 8199; 8200; 8201; 8202; 8232; 8233; 8239; 8287;
   12288]%N.

(** The line boundaries of [str.splitlines]. *)
Definition line_boundaries : list N :=
  [10; 11; 12; 13; 28; 29; 30; 133; 8232; 8233]%N.

(** The characters [str.upper] changes, each with what it becomes. *)
Definition upper_table : list (N * list N) :=
  [(97, [65]); (98, [66]); (99, [67]); (100, [68]); (101, [69]);
   (102, [70]); (103, [71]); (104, [72]); (105, [73]); (106, [74]);
   (107, [75]); (108, [76]); (109, [77]); (110, [78]); (111, [79]);
   (112, [80]); (113, [81]); (114, [82]); (115, [83]); (116, [84]);
   (117, [85]); (118, [86]); (119, [87]); (120, [88]); (121, [89]);
   (122, [90]); (181, [924]); (223, [83; 83]); (224, [192]); (225, [193]);
   (226, [194]); (227, [195]); (228, [196]); (229, [197]); (230, [198]);
   (231, [199]); (232, [200]); (233, [201]); (234, [202]); (235, [203]);
   (236, [204]); (237, [205]); (238, [206]); (239, [207]); (240, [208]);
   (241, [209]); (242, [210]); (243, [211]); (244, [212]); (245, [213]);
   (246, [214]); (248, [216]); (249, [217]); (250, [218]); (251, [219]);
   (252, [220]); (253, [221]); (254, [222]); (255, [376]); (257, [256]);
   (259, [258]); (261, [260]); (263, [262]); (265, [264]); (267, [266]);
   (269, [268]); (271, [270]); (273, [272]); (275, [274]); (277, [276]);
   (279, [278]); (281, [280]); (283, [282]); (285, [284]); (287, [286]);
   (289, [288]); (291, [290]); (293, [292]); (295, [294]); (297, [296]);
   (299, [298]); (301, [300]); (303, [302]); (305, [73]); (307, [306]);
   (309, [308]); (311, [310]); (314, [313]); (316, [315]); (318, [317]);
   (320, [319]); (322, [321]); (324, [323]); (326, [325]); (328, [327]);
   (329, [700; 78]); (331, [330]); (333, [332]); (335, [334]);
   (337, [336]); (339, [338]); (341, [340]); (343, [342]); (345, [344]);
   (347, [346]); (349, [348]); (351, [350]); (353, [352]); (355, [354]);
   (357, [356]); (359, [358]); (361, [360]); (363, [362]); (365, [364]);
   (367, [366]); (369, [368]); (371, [370]); (373, [372]); (375, [374]);
   (378, [377]); (380, [379]); (382, [381]); (383, [83]); (384, [579]);
   (387, [386]); (389, [388]); (392, [391]); (396, [395]); (402, [401]);
   (405, [502]); (409, [408]); (410, [573]); (414, [544]); (417, [416]);
   (419, [418]); (421, [420]); (424, [423]); (429, [428]); (432, [431]);
   (436, [435]); (438, [437]); (441, [440]); (445, [444]); (447, [503]);
   (453, [452]); (454, [452]); (456, [455]); (457, [455]); (459, [458]);
   (460, [458]); (462, [461]); (464, [463]); (466, [465]); (468, [467]);
   (470, [469]); (472, [471]); (474, [473]); (476, [475]); (477, [398]);
   (479, [478]); (481, [480]); (483, [482]); (485, [484]); (487, [486]);
   (489, [488]); (491, [490]); (493, [492]); (495, [494]);
   (496, [74; 780]); (498, [497]); (499, [497]); (501, [500]);
   (505, [504]); (507, [506]); (509, [508]); (511, [510]); (513, [512]);
   (515, [514]); (517, [516]); (519, [518]); (521, [520]); (523, [522]);
   (525, [524]); (527, [526]); (529, [528]); (531, [530]); (533, [532]);
   (535, [534]); (537, [536]); (539, [538]); (541, [540]); (543, [542]);
   (547, [546]); (549, [548]); (551, [550]); (553, [552]); (555, [554]);
   (557, [556]); (559, [558]); (561, [560]); (563, [562]); (572, [571]);
   (575, [11390]); (576, [11391]); (578, [577]); (583, [582]);
   (585, [584]); (587, [586]); (589, [588]); (591, [590]); (592, [11375]);
   (593, [11373]); (594, [11376]); (595, [385]); (596, [390]);
   (598, [393]); (599, [394]); (601, [399]); (603, [400]); (604, [42923]);
   (608, [403]); (609, [42924]); (611, [404]); (613, [42893]);
   (614, [42922]); (616, [407]); (617, [406]); (618, [42926]);
   (619, [11362]); (620, [42925]); (623, [412]); (625, [11374]);
   (626, [413]); (629, [415]); (637, [11364]); (640, [422]);
   (642, [42949]); (643, [425]); (647, [42929]); (648, [430]);
   (649, [580]); (650, [433]); (651, [434]); (652, [581]); (658, [439]);
   (669, [42930]); (670, [42928]); (837, [921]); (881, [880]);
   (883, [882]); (887, [886]); (891, [1021]); (892, [1022]); (893, [1023]);
   (912, [921; 776; 769]); (940, [902]); (941, [904]); (942, [905]);
   (943, [906]); (944, [933; 776; 769]); (945, [913]); (946, [914]);
   (947, [915]); (948, [916]); (949, [917]); (950, [918]); (951, [919]);
   (952, [920]); (953, [921]); (954, [922]); (955, [923]); (956, [924]);
   (957, [925]); (958, [926]); (959, [927]); (960, [928]); (961, [929]);
   (962, [931]); (963, [931]); (964, [932]); (965, [933]); (966, [934]);
   (967, [935]); (968, [936]); (969, [937]); (970, [938]); (971, [939]);
   (972, [908]); (973, [910]); (974, [911]); (976, [914]); (977, [920]);
   (981, [934]); (982, [928]); (983, [975]); (985, [984]); (987, [986]);
   (989, [988]); (991, [990]); (993, [992]); (995, [994]); (997, [996]);
   (999, [998]); (1001, [1000]); (1003, [1002]); (1005, [1004]);
   (1007, [1006]); (1008, [922]); (1009, [929]); (1010, [1017]);
   (1011, [895]); (1013, [917]); (1016, [1015]); (1019, [1018]);
   (1072, [1040]); (1073, [1041]); (1074, [1042]); (1075, [1043]);
   (1076, [1044]); (1077, [1045]); (1078, [1046]); (1079, [1047]);
   (1080, [1048]); (1081, [1049]); (1082, [1050]); (1083, [1051]);
   (1084, [1052]); (1085, [1053]); (1086, [1054]); (1087, [1055]);
   (1088, [1056]); (1089, [1057]); (1090, [1058]); (1091, [1059]);
   (1092, [1060]); (1093, [1061]); (1094, [1062]); (1095, [1063]);
   (1096, [1064]); (1097, [1065]); (1098, [1066]); (1099, [1067]);
   (1100, [1068]); (1101, [1069]); (1102, [1070]); (1103, [1071]);
   (1104, [1024]); (1105, [1025]); (1106, [1026]); (1107, [1027]);
   (1108, [1028]); (1109, [1029]); (1110, [1030]); (1111, [1031]);
   (1112, [1032]); (1113, [1033]); (1114, [1034]); (1115, [1035]);
   (1116, [1036]); (1117, [1037]); (1118, [1038]); (1119, [1039]);
   (1121, [1120]); (1123, [1122]); (1125, [1124]); (1127, [1126]);
   (1129, [1128]); (1131, [1130]); (1133, [1132]); (1135, [1134]);
   (1137, [1136]); (1139, [1138]); (1141, [1140]); (1143, [1142]);
   (1145, [1144]); (1147, [1146]); (1149, [1148]); (1151, [1150]);
   (1153, [1152]); (1163, [1162]); (1165, [1164]); (1167, [1166]);
   (1169, [1168]); (1171, [1170]); (1173, [1172]); (1175, [1174]);
   (1177, [1176]); (1179, [1178]); (1181, [1180]); (1183, [1182]);
   (1185, [1184]); (1187, [1186]); (1189, [1188]); (1191, [1190]);
   (1193, [1192]); (1195, [1194]); (1197, [1196]); (1199, [1198]);
   (1201, [1200]); (1203, [1202]); (1205, [1204]); (1207, [1206]);
   (1209, [1208]); (1211, [1210]); (1213, [1212]); (1215, [1214]);
   (1218, [1217]); (1220, [1219]); (1222, [1221]); (1224, [1223]);
   (1226, [1225]); (1228, [1227]); (1230, [1229]); (1231, [1216]);
   (1233, [1232]); (1235, [1234]); (1237, [1236]); (1239, [1238]);
   (1241, [1240]); (1243, [1242]); (1245, [1244]); (1247, [1246]);
   (1249, [1248]); (1251, [1250]); (1253, [1252]); (1255, [1254]);
   (1257, [1256]); (1259, [1258]); (1261, [1260]); (1263, [1262]);
   (1265, [1264]); (1267, [1266]); (1269, [1268]); (1271, [1270]);
   (1273, [1272]); (1275, [1274]); (1277, [1276]); (1279, [1278]);
   (1281, [1280]); (1283, [1282]); (1285, [1284]); (1287, [1286]);
   (1289, [1288]); (1291, [1290]); (1293, [1292]); (1295, [1294]);
   (1297, [1296]); (1299, [1298]); (1301, [1300]); (1303, [1302]);
   (1305, [1304]); (1307, [1306]); (1309, [1308]); (1311, [1310]);
   (1313, [1312]); (1315, [1314]); (1317, [1316]); (1319, [1318]);
   (1321, [1320]); (1323, [1322]); (1325, [1324]); (1327, [1326]);
   (1377, [1329]); (1378, [1330]); (1379, [1331]); (1380, [1332]);
   (1381, [1333]); (1382, [1334]); (1383, [1335]); (1384, [1336]);
   (1385, [1337]); (1386, [1338]); (1387, [1339]); (1388, [1340]);
   (1389, [1341]); (1390, [1342]); (1391, [1343]); (1392, [1344]);
   (1393, [1345]); (1394, [1346]); (1395, [1347]); (1396, [1348]);
   (1397, [1349]); (1398, [1350]); (1399, [1351]); (1400, [1352]);
   (1401, [1353]); (1402, [1354]); (1403, [1355]); (1404, [1356]);
   (1405, [1357]); (1406, [1358]); (1407, [1359]); (1408, [1360]);
   (1409, [1361]); (1410, [1362]); (1411, [1363]); (1412, [1364]);
   (1413, [1365]); (1414, [1366]); (1415, [1333; 1362]); (4304, [7312]);
   (4305, [7313]); (4306, [7314]); (4307, [7315]); (4308, [7316]);
   (4309, [7317]); (4310, [7318]); (4311, [7319]); (4312, [7320]);
   (4313, [7321]); (4314, [7322]); (4315, [7323]); (4316, [7324]);
   (4317, [7325]); (4318, [7326]); (4319, [7327]); (4320, [7328]);
   (4321, [7329]); (4322, [7330]); (4323, [7331]); (4324, [7332]);
   (4325, [7333]); (4326, [7334]); (4327, [7335]); (4328, [7336]);
   (4329, [7337]); (4330, [7338]); (4331, [7339]); (4332, [7340]);
   (4333, [7341]); (4334, [7342]); (4335, [7343]); (4336, [7344]);
   (4337, [7345]); (4338, [7346]); (4339, [7347]); (4340, [7348]);
   (4341, [7349]); (4342, [7350]); (4343, [7351]); (4344, [7352]);
   (4345, [7353]); (4346, [7354]); (4349, [7357]); (4350, [7358]);
   (4351, [7359]); (5112, [5104]); (5113, [5105]); (5114, [5106]);
   (5115, [5107]); (5116, [5108]); (5117, [5109]); (7296, [1042]);
   (7297, [1044]); (7298, [1054]); (7299, [1057]); (7300, [1058]);
   (7301, [1058]); (7302, [1066]); (7303, [1122]); (7304, [42570]);
   (7545, [42877]); (7549, [11363]); (7566, [42950]); (7681, [7680]);
   (7683, [7682]); (7685, [7684]); (7687, [7686]); (7689, [7688]);
   (7691, [7690]); (7693, [7692]); (7695, [7694]); (7697, [7696]);
   (7699, [7698]); (7701, [7700]); (7703, [7702]); (7705, [7704]);
   (7707, [7706]); (7709, [7708]); (7711, [7710]); (7713, [7712]);
   (7715, [7714]); (7717, [7716]); (7719, [7718]); (7721, [7720]);
   (7723, [7722]); (7725, [7724]); (7727, [7726]); (7729, [7728]);
   (7731, [7730]); (7733, [7732]); (7735, [7734]); (7737, [7736]);
   (7739, [7738]); (7741, [7740]); (7743, [7742]); (7745, [7744]);
   (7747, [7746]); (7749, [7748]); (7751, [7750]); (7753, [7752]);
   (7755, [7754]); (7757, [7756]); (7759, [7758]); (7761, [7760]);
   (7763, [7762]); (7765, [7764]); (7767, [7766]); (7769, [7768]);
   (7771, [7770]); (7773, [7772]); (7775, [7774]); (7777, [7776]);
   (7779, [7778]); (7781, [7780]); (7783, [7782]); (7785, [7784]);
   (7787, [7786]); (7789, [7788]); (7791, [7790]); (7793, [7792]);
   (7795, [7794]); (7797, [7796]); (7799, [7798]); (7801, [7800]);
   (7803, [7802]); (7805, [7804]); (7807, [7806]); (7809, [7808]);
   (7811, [7810]); (7813, [7812]); (7815, [7814]); (7817, [7816]);
   (7819, [7818]); (7821, [7820]); (7823, [7822]); (7825, [7824]);
   (7827, [7826]); (7829, [7828]); (7830, [72; 817]); (7831, [84; 776]);
   (7832, [87; 778]); (7833, [89; 778]); (7834, [65; 702]); (7835, [7776]);
   (7841, [7840]); (7843, [7842]); (7845, [7844]); (7847, [7846]);
   (7849, [7848]); (7851, [7850]); (7853, [7852]); (7855, [7854]);
   (7857, [7856]); (7859, [7858]); (7861, [7860]); (7863, [7862]);
   (7865, [7864]); (7867, [7866]); (7869, [7868]); (7871, [7870]);
   (7873, [7872]); (7875, [7874]); (7877, [7876]); (7879, [7878]);
   (7881, [7880]); (7883, [7882]); (7885, [7884]); (7887, [7886]);
   (7889, [7888]); (7891, [7890]); (7893, [7892]); (7895, [7894]);
   (7897, [7896]); (7899, [7898]); (7901, [7900]); (7903, [7902]);
   (7905, [7904]); (7907, [7906]); (7909, [7908]); (7911, [7910]);
   (7913, [7912]); (7915, [7914]); (7917, [7916]); (7919, [7918]);
   (7921, [7920]); (7923, [7922]); (7925, [7924]); (7927, [7926]);
   (7929, [7928]); (7931, [7930]); (7933, [7932]); (7935, [7934]);
   (7936, [7944]); (7937, [7945]); (7938, [7946]); (7939, [7947]);
   (7940, [7948]); (7941, [7949]); (7942, [7950]); (7943, [7951]);
   (7952, [7960]); (7953, [7961]); (7954, [7962]); (7955, [7963]);
   (7956, [7964]); (7957, [7965]); (7968, [7976]); (7969, [7977]);
   (7970, [7978]); (7971, [7979]); (7972, [7980]); (7973, [7981]);
   (7974, [7982]); (7975, [7983]); (7984, [7992]); (7985, [7993]);
   (7986, [7994]); (7987, [7995]); (7988, [7996]); (7989, [7997]);
   (7990, [7998]); (7991, [7999]); (8000, [8008]); (8001, [8009]);
   (8002, [8010]); (8003, [8011]); (8004, [8012]); (8005, [8013]);
   (8016, [933; 787]); (8017, [8025]); (8018, [933; 787; 768]);
   (8019, [8027]); (8020, [933; 787; 769]); (8021, [8029]);
   (8022, [933; 787; 834]); (8023, [8031]); (8032, [8040]); (8033, [8041]);
   (8034, [8042]); (8035, [8043]); (8036, [8044]); (8037, [8045]);
   (8038, [8046]); (8039, [8047]); (8048, [8122]); (8049, [8123]);
   (8050, [8136]); (8051, [8137]); (8052, [8138]); (8053, [8139]);
   (8054, [8154]); (8055, [8155]); (8056, [8184]); (8057, [8185]);
   (8058, [8170]); (8059, [8171]); (8060, [8186]); (8061, [8187]);
   (8064, [7944; 921]); (8065, [7945; 921]); (8066, [7946; 921]);
   (8067, [7947; 921]); (8068, [7948; 921]); (8069, [7949; 921]);
   (8070, [7950; 921]); (8071, [7951; 921]); (8072, [7944; 921]);
   (8073, [7945; 921]); (8074, [7946; 921]); (8075, [7947; 921]);
   (8076, [7948; 921]); (8077, [7949; 921]); (8078, [7950; 921]);
   (8079, [7951; 921]); (8080, [7976; 921]); (8081, [7977; 921]);
   (8082, [7978; 921]); (8083, [7979; 921]); (8084, [7980; 921]);
   (8085, [7981; 921]); (8086, [7982; 921]); (8087, [7983; 921]);
   (8088, [7976; 921]); (8089, [7977; 921]); (8090, [7978; 921]);
   (8091, [7979; 921]); (8092, [7980; 921]); (8093, [7981; 921]);
   (8094, [7982; 921]); (8095, [7983; 921]); (8096, [8040; 921]);
   (8097, [8041; 921]); (8098, [8042; 921]); (8099, [8043; 921]);
   (8100, [8044; 921]); (8101, [8045; 921]); (8102, [8046; 921]);
   (8103, [8047; 921]); (8104, [8040; 921]); (8105, [8041; 921]);
   (8106, [8042; 921]); (8107, [8043; 921]); (8108, [8044; 921]);
   (8109, [8045; 921]); (8110, [8046; 921]); (8111, [8047; 921]);
   (8112, [8120]); (8113, [8121]); (8114, [8122; 921]); (8115, [913; 921]);
   (8116, [902; 921]); (8118, [913; 834]); (8119, [913; 834; 921]);
   (8124, [913; 921]); (8126, [921]); (8130, [8138; 921]);
   (8131, [919; 921]); (8132, [905; 921]); (8134, [919; 834]);
   (8135, [919; 834; 921]); (8140, [919; 921]); (8144, [8152]);
   (8145, [8153]); (8146, [921; 776; 768]); (8147, [921; 776; 769]);
   (8150, [921; 834]); (8151, [921; 776; 834]); (8160, [8168]);
   (8161, [8169]); (8162, [933; 776; 768]); (8163, [933; 776; 769]);
   (8164, [929; 787]); (8165, [8172]); (8166, [933; 834]);
   (8167, [933; 776; 834]); (8178, [8186; 921]); (8179, [937; 921]);
   (8180, [911; 921]); (8182, [937; 834]); (8183, [937; 834; 921]);
   (8188, [937; 921]); (8526, [8498]); (8560, [8544]); (8561, [8545]);
   (8562, [8546]); (8563, [8547]); (8564, [8548]); (8565, [8549]);
   (8566, [8550]); (8567, [8551]); (8568, [8552]); (8569, [8553]);
   (8570, [8554]); (8571, [8555]); (8572, [8556]); (8573, [8557]);
   (8574, [8558]); (8575, [8559]); (8580, [8579]); (9424, [9398]);
   (9425, [9399]); (9426, [9400]); (9427, [9401]); (9428, [9402]);
   (9429, [9403]); (9430, [9404]); (9431, [9405]); (9432, [9406]);
   (9433, [9407]); (9434, [9408]); (9435, [9409]); (9436, [9410]);
   (9437, [9411]); (9438, [9412]); (9439, [9413]); (9440, [9414]);
   (9441, [9415]); (9442, [9416]); (9443, [9417]); (9444, [9418]);
   (9445, [9419]); (9446, [9420]); (9447, [9421]); (9448, [9422]);
   (9449, [9423]); (11312, [11264]); (11313, [11265]); (11314, [11266]);
   (11315, [11267]); (11316, [11268]); (11317, [11269]); (11318, [11270]);
   (11319, [11271]); (11320, [11272]); (11321, [11273]); (11322, [11274]);
   (11323, [11275]); (11324, [11276]); (11325, [11277]); (11326, [11278]);
   (11327, [11279]); (11328, [11280]); (11329, [11281]); (11330, [11282]);
   (11331, [11283]); (11332, [11284]); (11333, [11285]); (11334, [11286]);
   (11335, [11287]); (11336, [11288]); (11337, [11289]); (11338, [11290]);
   (11339, [11291]); (11340, [11292]); (11341, [11293]); (11342, [11294]);
   (11343, [11295]); (11344, [11296]); (11345, [11297]); (11346, [11298]);
   (11347, [11299]); (11348, [11300]); (11349, [11301]); (11350, [11302]);
   (11351, [11303]); (11352, [11304]); (11353, [11305]); (11354, [11306]);
   (11355, [11307]); (11356, [11308]); (11357, [11309]); (11358, [11310]);
   (11359, [11311]); (11361, [11360]); (11365, [570]); (11366, [574]);
   (11368, [11367]); (11370, [11369]); (11372, [11371]); (11379, [11378]);
   (11382, [11381]); (11393, [11392]); (11395, [11394]); (11397, [11396]);
   (11399, [11398]); (11401, [11400]); (11403, [11402]); (11405, [11404]);
   (11407, [11406]); (11409, [11408]); (11411, [11410]); (11413, [11412]);
   (11415, [11414]); (11417, [11416]); (11419, [11418]); (11421, [11420]);
   (11423, [11422]); (11425, [11424]); (11427, [11426]); (11429, [11428]);
   (11431, [11430]); (11433, [11432]); (11435, [11434]); (11437, [11436]);
   (11439, [11438]); (11441, [11440]); (11443, [11442]); (11445, [11444]);
   (11447, [11446]); (11449, [11448]); (11451, [11450]); (11453, [11452]);
   (11455, [11454]); (11457, [11456]); (11459, [11458]); (11461, [11460]);
   (11463, [11462]); (11465, [11464]); (11467, [11466]); (11469, [11468]);
   (11471, [11470]); (11473, [11472]); (11475, [11474]); (11477, [11476]);
   (11479, [11478]); (11481, [11480]); (11483, [11482]); (11485, [11484]);
   (11487, [11486]); (11489, [11488]); (11491, [11490]); (11500, [11499]);
   (11502, [11501]); (11507, [11506]); (11520, [4256]); (11521, [4257]);
   (11522, [4258]); (11523, [4259]); (11524, [4260]); (11525, [4261]);
   (11526, [4262]); (11527, [4263]); (11528, [4264]); (11529, [4265]);
   (11530, [4266]); (11531, [4267]); (11532, [4268]); (11533, [4269]);
   (11534, [4270]); (11535, [4271]); (11536, [4272]); (11537, [4273]);
   (11538, [4274]); (11539, [4275]); (11540, [4276]); (11541, [4277]);
   (11542, [4278]); (11543, [4279]); (11544, [4280]); (11545, [4281]);
   (11546, [4282]); (11547, [4283]); (11548, [4284]); (11549, [4285]);
   (11550, [4286]); (11551, [4287]); (11552, [4288]); (11553, [4289]);
   (11554, [4290]); (11555, [4291]); (11556, [4292]); (11557, [4293]);
   (11559, [4295]); (11565, [4301]); (42561, [42560]); (42563, [42562]);
   (42565, [42564]); (42567, [42566]); (42569, [42568]); (42571, [42570]);
   (42573, [42572]); (42575, [42574]); (42577, [42576]); (42579, [42578]);
   (42581, [42580]); (42583, [42582]); (42585, [42584]); (42587, [42586]);
   (42589, [42588]); (42591, [42590]); (42593, [42592]); (42595, [42594]);
   (42597, [42596]); (42599, [42598]); (42601, [42600]); (42603, [42602]);
   (42605, [42604]); (42625, [42624]); (42627, [42626]); (42629, [42628]);
   (42631, [42630]); (42633, [42632]); (42635, [42634]); (42637, [42636]);
   (42639, [42638]); (42641, [42640]); (42643, [42642]); (42645, [42644]);
   (42647, [42646]); (42649, [42648]); (42651, [42650]); (42787, [42786]);
   (42789, [42788]); (42791, [42790]); (42793, [42792]); (42795, [42794]);
   (42797, [42796]); (42799, [42798]); (42803, [42802]); (42805, [42804]);
   (42807, [42806]); (42809, [42808]); (42811, [42810]); (42813, [42812]);
   (42815, [42814]); (42817, [42816]); (42819, [42818]); (42821, [42820]);
   (42823, [42822]); (42825, [42824]); (42827, [42826]); (42829, [42828]);
   (42831, [42830]); (42833, [42832]); (42835, [42834]); (42837, [42836]);
   (42839, [42838]); (42841, [42840]); (42843, [42842]); (42845, [42844]);
   (42847, [42846]); (42849, [42848]); (42851, [42850]); (42853, [42852]);
   (42855, [42854]); (42857, [42856]); (42859, [42858]); (42861, [42860]);
   (42863, [42862]); (42874, [42873]); (42876, [42875]); (42879, [42878]);
   (42881, [42880]); (42883, [42882]); (42885, [42884]); (42887, [42886]);
   (42892, [42891]); (42897, [42896]); (42899, [42898]); (42900, [42948]);
   (42903, [42902]); (42905, [42904]); (42907, [42906]); (42909, [42908]);
   (42911, [42910]); (42913, [42912]); (42915, [42914]); (42917, [42916]);
   (42919, [42918]); (42921, [42920]); (42933, [42932]); (42935, [42934]);
   (42937, [42936]); (42939, [42938]); (42941, [42940]); (42943, [42942]);
   (42945, [42944]); (42947, [42946]); (42952, [42951]); (42954, [42953]);
   (42961, [42960]); (42967, [42966]); (42969, [42968]); (42998, [42997]);
   (43859, [42931]); (43888, [5024]); (43889, [5025]); (43890, [5026]);
   (43891, [5027]); (43892, [5028]); (43893, [5029]); (43894, [5030]);
   (43895, [5031]); (43896, [5032]); (43897, [5033]); (43898, [5034]);
   (43899, [5035]); (43900, [5036]); (43901, [5037]); (43902, [5038]);
   (43903, [5039]); (43904, [5040]); (43905, [5041]); (43906, [5042]);
   (43907, [5043]); (43908, [5044]); (43909, [5045]); (43910, [5046]);
   (43911, [5047]); (43912, [5048]); (43913, [5049]); (43914, [5050]);
   (43915, [5051]); (43916, [5052]); (43917, [5053]); (43918, [5054]);
   (43919, [5055]); (43920, [5056]); (43921, [5057]); (43922, [5058]);
   (43923, [5059]); (43924, [5060]); (43925, [5061]); (43926, [5062]);
   (43927, [5063]); (43928, [5064]); (43929, [5065]); (43930, [5066]);
   (43931, [5067]); (43932, [5068]); (43933, [5069]); (43934, [5070]);
   (43935, [5071]); (43936, [5072]); (43937, [5073]); (43938, [5074]);
   (43939, [5075]); (43940, [5076]); (43941, [5077]); (43942, [5078]);
   (43943, [5079]); (43944, [5080]); (43945, [5081]); (43946, [5082]);
   (43947, [5083]); (43948, [5084]); (43949, [5085]); (43950, [5086]);
   (43951, [5087]); (43952, [5088]); (43953, [5089]); (43954, [5090]);
   (43955, [5091]); (43956, [5092]); (43957, [5093]); (43958, [5094]);
   (43959, [5095]); (43960, [5096]); (43961, [5097]); (43962, [5098]);
   (43963, [5099]); (43964, [5100]); (43965, [5101]); (43966, [5102]);
   (43967, [5103]); (64256, [70; 70]); (64257, [70; 73]);
   (64258, [70; 76]); (64259, [70; 70; 73]); (64260, [70; 70; 76]);
   (64261, [83; 84]); (64262, [83; 84]); (64275, [1348; 1350]);
   (64276, [1348; 1333]); (64277, [1348; 1339]); (64278, [1358; 1350]);
   (64279, [1348; 1341]); (65345, [65313]); (65346, [65314]);
   (65347, [65315]); (65348, [65316]); (65349, [65317]); (65350, [65318]);
   (65351, [65319]); (65352, [65320]); (65353, [65321]); (65354, [65322]);
   (65355, [65323]); (65356, [65324]); (65357, [65325]); (65358, [65326]);
   (65359, [65327]); (65360, [65328]); (65361, [65329]); (65362, [65330]);
   (65363, [65331]); (65364, [65332]); (65365, [65333]); (65366, [65334]);
   (65367, [65335]); (65368, [65336]); (65369, [65337]); (65370, [65338]);
   (66600, [66560]); (66601, [66561]); (66602, [66562]); (66603, [66563]);
   (66604, [66564]); (66605, [66565]); (66606, [66566]); (66607, [66567]);
   (66608, [66568]); (66609, [66569]); (66610, [66570]); (66611, [66571]);
   (66612, [66572]); (66613, [66573]); (66614, [66574]); (66615, [66575]);
   (66616, [66576]); (66617, [66577]); (66618, [66578]); (66619, [66579]);
   (66620, [66580]); (66621, [66581]); (66622, [66582]); (66623, [66583]);
   (66624, [66584]); (66625, [66585]); (66626, [66586]); (66627, [66587]);
   (66628, [66588]); (66629, [66589]); (66630, [66590]); (66631, [66591]);
   (66632, [66592]); (66633, [66593]); (66634, [66594]); (66635, [66595]);
   (66636, [66596]); (66637, [66597]); (66638, [66598]); (66639, [66599]);
   (66776, [66736]); (66777, [66737]); (66778, [66738]); (66779, [66739]);
   (66780, [66740]); (66781, [66741]); (66782, [66742]); (66783, [66743]);
   (66784, [66744]); (66785, [66745]); (66786, [66746]); (66787, [66747]);
   (66788, [66748]); (66789, [66749]); (66790, [66750]); (66791, [66751]);
   (66792, [66752]); (66793, [66753]); (66794, [66754]); (66795, [66755]);
   (66796, [66756]); (66797, [66757]); (66798, [66758]); (66799, [66759]);
   (66800, [66760]); (66801, [66761]); (66802, [66762]); (66803, [66763]);
   (66804, [66764]); (66805, [66765]); (66806, [66766]); (66807, [66767]);
   (66808, [66768]); (66809, [66769]); (66810, [66770]); (66811, [66771]);
   (66967, [66928]); (66968, [66929]); (66969, [66930]); (66970, [66931]);
   (66971, [66932]); (66972, [66933]); (66973, [66934]); (66974, [66935]);
   (66975, [66936]); (66976, [66937]); (66977, [66938]); (66979, [66940]);
   (66980, [66941]); (66981, [66942]); (66982, [66943]); (66983, [66944]);
   (66984, [66945]); (66985, [66946]); (66986, [66947]); (66987, [66948]);
   (66988, [66949]); (66989, [66950]); (66990, [66951]); (66991, [66952]);
   (66992, [66953]); (66993, [66954]); (66995, [66956]); (66996, [66957]);
   (66997, [66958]); (66998, [66959]); (66999, [66960]); (67000, [66961]);
   (67001, [66962]); (67003, [66964]); (67004, [66965]); (68800, [68736]);
   (68801, [68737]); (68802, [68738]); (68803, [68739]); (68804, [68740]);
   (68805, [68741]); (68806, [68742]); (68807, [68743]); (68808, [68744]);
   (68809, [68745]); (68810, [68746]); (68811, [68747]); (68812, [68748]);
   (68813, [68749]); (68814, [68750]); (68815, [68751]); (68816, [68752]);
   (68817, [68753]); (68818, [68754]); (68819, [68755]); (68820, [68756]);
   (68821, [68757]); (68822, [68758]); (68823, [68759]); (68824, [68760]);
   (68825, [68761]); (68826, [68762]); (68827, [68763]); (68828, [68764]);
   (68829, [68765]); (68830, [68766]); (68831, [68767]); (68832, [68768]);
   (68833, [68769]); (68834, [68770]); (68835, [68771]); (68836, [68772]);
   (68837, [68773]); (68838, [68774]); (68839, [68775]); (68840, [68776]);
   (68841, [68777]); (68842, [68778]); (68843, [68779]); (68844, [68780]);
   (68845, [68781]); (68846, [68782]); (68847, [68783]); (68848, [68784]);
   (68849, [68785]); (68850, [68786]); (71872, [71840]); (71873, [71841]);
   (71874, [71842]); (71875, [71843]); (71876, [71844]); (71877, [71845]);
   (71878, [71846]); (71879, [71847]); (71880, [71848]); (71881, [71849]);
   (71882, [71850]); (71883, [71851]); (71884, [71852]); (71885, [71853]);
   (71886, [71854]); (71887, [71855]); (71888, [71856]); (71889, [71857]);
   (71890, [71858]); (71891, [71859]); (71892, [71860]); (71893, [71861]);
   (71894, [71862]); (71895, [71863]); (71896, [71864]); (71897, [71865]);
   (71898, [71866]); (71899, [71867]); (71900, [71868]); (71901, [71869]);
   (71902, [71870]); (71903, [71871]); (93792, [93760]); (93793, [93761]);
   (93794, [93762]); (93795, [93763]); (93796, [93764]); (93797, [93765]);
   (93798, [93766]); (93799, [93767]); (93800, [93768]); (93801, [93769]);
   (93802, [93770]); (93803, [93771]); (93804, [93772]); (93805, [93773]);
   (93806, [93774]); (93807, [93775]); (93808, [93776]); (93809, [93777]);
   (93810, [93778]); (93811, [93779]); (93812, [93780]); (93813, [93781]);
   (93814, [93782]); (93815, [93783]); (93816, [93784]); (93817, [93785]);
   (93818, [93786]); (93819, [93787]); (93820, [93788]); (93821, [93789]);
   (93822, [93790]); (93823, [93791]); (125218, [125184]);
   (125219, [125185]); (125220, [125186]); (125221, [125187]);
   (125222, [125188]); (125223, [125189]); (125224, [125190]);
   (125225, [125191]); (125226, [125192]); (125227, [125193]);
   (125228, [125194]); (125229, [125195]); (125230, [125196]);
   (125231, [125197]); (125232, [125198]); (125233, [125199]);
   (125234, [125200]); (125235, [125201]); (125236, [125202]);
   (125237, [125203]); (125238, [125204]); (125239, [125205]);
   (125240, [125206]); (125241, [125207]); (125242, [125208]);
   (125243, [125209]); (125244, [125210]); (125245, [125211]);
   (125246, [125212]); (125247, [125213]); (125248, [125214]);
   (125249, [125215]); (125250, [125216]); (125251, [125217])]%N.

Definition mem (c : N) (l : list N) : bool := existsb (N.eqb c) l.

(** The zero of the run of decimal digits [c] belongs to. *)
Definition decimal_zero (c : N) : option N :=
  List.find (fun z => (z <=? c) && (c <=? z + 9))%N decimal_zeros.

(** [\d]. *)
Definition isdigit (c : N) : bool :=
  match decimal_zero c with Some _ => true | None => false end.

Definition digit_value (c : N) : Z :=
  match decimal_zero c with Some z => Z.of_N (c - z) | None => 0%Z end.

(** White space of [str.isspace] and [str.strip]. *)
Definition isspace_char (c : N) : bool := mem c white_space.

(** Line boundaries of [str.splitlines]. *)
Definition islinebreak (c : N) : bool := mem c line_boundaries.

(** [str.lower] on the ASCII letters.  The source lower-cases a text only
    to look for the marker of an unreleased lineup, which is ASCII.
    Beyond ASCII two characters lower-case to text that holds an ASCII
    letter: U+212A to "k", which the marker does not hold, and U+0130 to
    "i" followed by a combining dot, which no occurrence of the marker
    can span.  So the marker occurs in the lower-cased text of the
    interpreter exactly when it occurs in this one. *)
Definition lower_char (c : N) : N :=
  if ((65 <=? c) && (c <=? 90))%N then (c + 32)%N else c.

Definition upper_char (c : N) : list N :=
  match List.find (fun p => (fst p =? c)%N) upper_table with
  | Some p => snd p
  | None => [c]
  end.

Fixpoint str_map (f : N -> N) (s : pystr) : pystr :=
  match s with
  | [] => []
  | c :: s' => f c :: str_map f s'
  end.

Definition lower : pystr -> pystr := str_map lower_char.

(** [str.upper]: character by character, by the table. *)
Fixpoint upper (s : pystr) : pystr :=
  match s with
  | [] => []
  | c :: s' => upper_char c ++ upper s'
  end.

Fixpoint str_forall (p : N -> bool) (s : pystr) : bool :=
  match s with
  | [] => true
  | c :: s' => p c && str_forall p s'
  end.

Definition is_empty (s : pystr) : bool :=
  match s with [] => true | _ => false end.

(** [s.isspace()]: non-empty and white space only. *)
Definition isspace (s : pystr) : bool :=
  negb (is_empty s) && str_forall isspace_char s.

Fixpoint lstrip (s : pystr) : pystr :=
  match s with
  | [] => []
  | c :: s' => if isspace_char c then lstrip s' else s
  end.

Fixpoint rstrip (s : pystr) : pystr :=
  match s with
  | [] => []
  | c :: s' =>
      let r := rstrip s' in
      if isspace_char c && is_empty r then [] else c :: r
  end.

Definition strip (s : pystr) : pystr := rstrip (lstrip s).

(** [s.startswith(prefix)]. *)
Fixpoint startswith (prefix s : pystr) : bool :=
  match prefix with
  | [] => true
  | a :: prefix' =>
      match s with
      | [] => false
      | b :: s' => (a =? b)%N && startswith prefix' s'
      end
  end.

(** [needle in hay]. *)
Fixpoint contains (needle hay : pystr) : bool :=
  startswith needle hay ||
  match hay with
  | [] => false
  | _ :: hay' => contains needle hay'
  end.

(** [s.replace(c, empty)] for a one-character [c]. *)
Fixpoint remove_char (c : N) (s : pystr) : pystr :=
  match s with
  | [] => []
  | d :: s' =>
      if (d =? c)%N then remove_char c s' else d :: remove_char c s'
  end.

Definition snoc (s : pystr) (c : N) : pystr := s ++ [c].

(** [s.split(sep)] for a one-character [sep]; [cur] is the piece being
    read.  The result is never empty. *)
Fixpoint split_from (sep : N) (cur s : pystr) : list pystr :=
  match s with
  | [] => [cur]
  | c :: s' =>
      if (c =? sep)%N then cur :: split_from sep [] s'
      else split_from sep (snoc cur c) s'
  end.

Definition split (sep : N) (s : pystr) : list pystr :=
  split_from sep [] s.

(** [s.splitlines()]: a carriage return followed by a line feed is one
    boundary, and no empty piece is produced after the last boundary. *)
Fixpoint splitlines_from (cur s : pystr) : list pystr :=
  match s with
  | [] => if is_empty cur then [] else [cur]
  | c :: s' =>
      if (c =? 13)%N then
        match s' with
        | d :: s'' =>
            if (d =? 10)%N then cur :: splitlines_from [] s''
            else cur :: splitlines_from [] s'
        | [] => cur :: splitlines_from [] s'
        end
      else if islinebreak c then cur :: splitlines_from [] s'
      else splitlines_from (snoc cur c) s'
  end.

Definition splitlines (s : pystr) : list pystr :=
  splitlines_from [] s.

(** *** [re.search(r"\d+", s)] *)

(** The longest run of digits at the head of [s]. *)
Fixpoint digit_run (s : pystr) : pystr :=
  match s with
  | [] => []
  | c :: s' => if isdigit c then c :: digit_run s' else []
  end.

(** The match object's [group()]: leftmost match, greedy. *)
Fixpoint search_digits (s : pystr) : option pystr :=
  match s with
  | [] => None
  | c :: s' =>
      if isdigit c then Some (c :: digit_run s') else search_digits s'
  end.

(** *** [int(x)] *)

(** The white space [int] skips around the number: the ASCII blanks of C,
    and the white space beyond ASCII. *)
Definition int_space (c : N) : bool :=
  mem c [9; 10; 11; 12; 13; 32]%N || ((127 <=? c)%N && isspace_char c).

Fixpoint skip_int_space (s : pystr) : pystr :=
  match s with
  | [] => []
  | c :: s' => if int_space c then skip_int_space s' else s
  end.

(** The digits after the first one, then the trailing white space; a
    single underscore may separate two digits. *)
Fixpoint int_digits (acc : Z) (s : pystr) : option Z :=
  match s with
  | [] => Some acc
  | c :: s' =>
      if isdigit c then int_digits (10 * acc + digit_value c)%Z s'
      else if (c =? 95)%N then
        match s' with
        | d :: s'' =>
            if isdigit d then int_digits (10 * acc + digit_value d)%Z s'' else None
        | [] => None
        end
      else if str_forall int_space s then Some acc
      else None
  end.

Definition int_literal (s : pystr) : option Z :=
  match s with
  | c :: s' => if isdigit c then int_digits (digit_value c) s' else None
  | [] => None
  end.

(** [int(s)] for a [str]: white space, one optional sign, the digits,
    white space.  The optional limit newer interpreters put on the
    number of digits is not modelled. *)
Definition int_of_str (s : pystr) : result Z :=
  let t := skip_int_space s in
  let signed :=
    match t with
    | c :: r =>
        if (c =? 45)%N then option_map Z.opp (int_literal r)
        else if (c =? 43)%N then int_literal r
        else int_literal t
    | [] => None
    end in
  match signed with
  | Some z => Ok z
  | None => Raise (ValueError (InvalidLiteral s))
  end.

(** The tables are looked up by computation only. *)
Arguments mem : simpl never.
Arguments decimal_zero : simpl never.
Arguments isdigit : simpl never.
Arguments digit_value : simpl never.
Arguments isspace_char : simpl never.
Arguments islinebreak : simpl never.
Arguments upper_char : simpl never.
Arguments int_space : simpl never.

(** [int(x)] where [x] is a [str] or [None]. *)
Definition int (x : option pystr) : result Z :=
  match x with
  | Some s => int_of_str s
  | None => Raise TypeError
  end.

(** *** Sequences *)

(** [xs[0]]. *)
Definition index0 {A} (xs : list A) : result A :=
  match xs with
  | x :: _ => Ok x
  | [] => Raise IndexError
  end.

(** [xs[1]]. *)
Definition index1 {A} (xs : list A) : result A :=
  match xs with
  | _ :: x :: _ => Ok x
  | _ => Raise IndexError
  end.

(** [xs[-1]]. *)
Definition index_last {A} (xs : list A) : result A :=
  match last xs with
  | Some x => Ok x
  | None => Raise IndexError
  end.

(** [a, b = xs]. *)
Definition unpack2 {A} (xs : list A) : result (A * A) :=
  match xs with
  | [a; b] => Ok (a, b)
  | [] => Raise (ValueError (Text "not enough values to unpack (expected 2, got 0)"))
  | [_] => Raise (ValueError (Text "not enough values to unpack (expected 2, got 1)"))
  | _ => Raise (ValueError (Text "too many values to unpack (expected 2)"))
  end.

End Py.

(** ** The text utility *)

Definition extract_int (str : pystr) : result (option Z) :=
  match Py.search_digits str with
  | Some m => z ← Py.int (Some m); Ok (Some z)
  | None => Ok None
  end.

(** ** The markup tree *)

Module Soup.

Local Unset Elimination Schemes.

(** A text node, or an element with its tag name, its classes (the
    list-valued [class] attribute), its other attributes and its
    children.  The document itself is an element too. *)
Inductive node : Type :=
| NavigableString (s : pystr)
| Tag (name : string) (classes : list string)
      (attrs : gmap string pystr) (contents : list node).
Local Set Elimination Schemes.

(** Induction on the tree: a property of the children carries over to
    the element. *)
Section Induction.
Variable P : node -> Prop.
Hypothesis P_string : forall s, P (NavigableString s).
Hypothesis P_tag : forall name classes attrs contents,
  Forall P contents -> P (Tag name classes attrs contents).

Fixpoint node_ind (n : node) : P n :=
  match n with
  | NavigableString s => P_string s
  | Tag name classes attrs contents =>
      P_tag name classes attrs contents
        ((fix go (l : list node) : Forall P l :=
            match l with
            | [] => List.Forall_nil P
            | c :: l' => List.Forall_cons P c l' (node_ind c) (go l')
            end) contents)
  end.
End Induction.

(** [tag.get_text()]: the text nodes below [tag], concatenated. *)
Fixpoint get_text (n : node) : pystr :=
  match n with
  | NavigableString s => s
  | Tag _ _ _ cs =>
      (fix go (l : list node) : pystr :=
         match l with
         | [] => []
         | c :: l' => get_text c ++ go l'
         end) cs
  end.

(** [tag.attrs.get(key)]. *)
Definition attr (key : string) (n : node) : option pystr :=
  match n with
  | NavigableString _ => None
  | Tag _ _ a _ => a !! key
  end.

(** Everything below [n], in document order. *)
Fixpoint descendants (n : node) : list node :=
  match n with
  | NavigableString _ => []
  | Tag _ _ _ cs =>
      (fix go (l : list node) : list node :=
         match l with
         | [] => []
         | c :: l' => c :: descendants c ++ go l'
         end) cs
  end.

Definition mem (x : string) (l : list string) : bool :=
  existsb (String.eqb x) l.

Definition has_class (c : string) (n : node) : bool :=
  match n with
  | NavigableString _ => false
  | Tag _ cl _ _ => mem c cl
  end.

Definition has_name (t : string) (n : node) : bool :=
  match n with
  | NavigableString _ => false
  | Tag name _ _ _ => String.eqb name t
  end.

(** The selectors the extractor uses: [".c"], ["t"] and [".p > .c"]. *)
Inductive selector : Type :=
| Class (c : string)
| Name (t : string)
| ChildOf (p c : string).

(** The elements below [n] that are children of an element of class [p]
    and have class [c], in document order.  [under] tells whether [n]
    itself has class [p]. *)
Fixpoint select_children (p c : string) (n : node) : list node :=
  match n with
  | NavigableString _ => []
  | Tag _ cl _ cs =>
      let under := mem p cl in
      (fix go (l : list node) : list node :=
         match l with
         | [] => []
         | k :: l' =>
             (if under && has_class c k then [k] else [])
             ++ select_children p c k ++ go l'
         end) cs
  end.

(** [tag.select(sel)]. *)
Definition select (sel : selector) (n : node) : list node :=
  match sel with
  | Class c => List.filter (has_class c) (descendants n)
  | Name t => List.filter (has_name t) (descendants n)
  | ChildOf p c => select_children p c n
  end.

(** [tag.select_one(sel)]. *)
Definition select_one (sel : selector) (n : node) : option node :=
  head (select sel n).

(** A method call on what [select_one] returned: [None] has no
    methods. *)
Definition deref (o : option node) : result node :=
  match o with
  | Some n => Ok n
  | None => Raise AttributeError
  end.

End Soup.

Import Soup.

(** ** Records *)

(** The scalars a record holds. *)
Inductive pyval : Type :=
| PNone
| PInt (z : Z)
| PStr (s : pystr)
| PBool (b : bool).

Definition of_int (o : option Z) : pyval :=
  match o with Some z => PInt z | None => PNone end.

Definition of_str (o : option pystr) : pyval :=
  match o with Some s => PStr s | None => PNone end.

(** [{**a, **b}]: the entries of [b] win. *)
Definition unpack_both (a b : gmap string pyval) : gmap string pyval := b ∪ a.

(** A dict display [{k1: v1, ...}]. *)
Definition dict (kvs : list (string * pyval)) : gmap string pyval :=
  list_to_map kvs.

(** ** Players *)

Module Player.

Record t : Type := mk {
  name : option pystr;
  handedness : option pystr;
  mlb_id : option Z
}.

Definition __init__ : t :=
  {| name := None; handedness := None; mlb_id := None |}.

Definition _clean_player (p_str : pystr) : list pystr :=
  let pl := Py.splitlines p_str in
  let pl := List.filter (fun p => negb (Py.is_empty p) && negb (Py.isspace p)) pl in
  map Py.strip pl.

(** An element is always true in a condition, so the desktop name is
    used whenever the element exists. *)
Definition _parse_name (a : option node) : result pystr :=
  a ← deref a;
  match select_one (Class "desktop-name") a with
  | Some span => Ok (Py.strip (get_text span))
  | None => Ok (Py.strip (get_text a))
  end.

Definition _parse_mlb_id (a : option node) : result (option pystr) :=
  a ← deref a;
  Ok (attr "data-mlb" a).

Definition parse (container : node) : result (pystr * Z) :=
  let player_a := select_one (Name "a") container in
  name ← _parse_name player_a;
  raw_id ← _parse_mlb_id player_a;
  mlb_id ← Py.int raw_id;
  Ok (name, mlb_id).

Definition record (self : t) : gmap string pyval :=
  dict [("ID", of_int (mlb_id self));
        ("Name", of_str (name self));
        ("Handedness", of_str (handedness self))].

End Player.

Module Batter.

Record t : Type := mk {
  base : Player.t;
  order : option Z;
  position : pystr
}.

Definition _parse_order (i_str : pystr) : result (option Z) :=
  extract_int i_str.

Definition _parse_handedness (hand_str : pystr) : pystr :=
  Py.remove_char (ch ")") (Py.remove_char (ch "(") hand_str).

Definition _parse_position (pos_str : pystr) : pystr := pos_str.

Definition parse (soup : node)
  : result (option Z * pystr * pystr * Z * pystr) :=
  let p := Player._clean_player (get_text soup) in
  stat_line ← Py.index_last p;
  '(hand_str, pos_str) ← Py.unpack2 (Py.split (ch " ") stat_line);
  '(name, mlb_id) ← Player.parse soup;
  order_line ← Py.index0 p;
  order ← _parse_order order_line;
  let handedness := _parse_handedness hand_str in
  let position := _parse_position pos_str in
  Ok (order, name, handedness, mlb_id, position).

Definition __init__ (soup : node) : result t :=
  '(order, name, handedness, mlb_id, position) ← parse soup;
  Ok {| base := {| Player.name := Some name;
                   Player.handedness := Some handedness;
                   Player.mlb_id := Some mlb_id |};
        order := order;
        position := position |}.

Definition record (self : t) : gmap string pyval :=
  let r := Player.record (base self) in
  unpack_both r (dict [("Position", PStr (position self));
                       ("Order", of_int (order self))]).

End Batter.

Module Pitcher.

Record t : Type := mk {
  base : Player.t;
  position : option pystr
}.

Definition _is_valid_pitcher (html : node) : bool :=
  negb (Py.contains (lit "TBD") (get_text html)).

Definition _parse_handedness (hand_str : pystr) : pystr :=
  Py.remove_char (ch ")") (Py.remove_char (ch "(") hand_str).

Definition _parse_position : pystr := lit "P".

Definition parse (soup : node) : result (pystr * pystr * Z * pystr) :=
  let p := Player._clean_player (get_text soup) in
  '(name, mlb_id) ← Player.parse soup;
  stat_line ← Py.index_last p;
  let handedness := _parse_handedness stat_line in
  let position := _parse_position in
  Ok (name, handedness, mlb_id, position).

Definition __init__ (soup : node) : result t :=
  let self := Player.__init__ in
  if negb (_is_valid_pitcher soup) then
    Ok {| base := self; position := None |}
  else
    '(name, handedness, mlb_id, position) ← parse soup;
    Ok {| base := {| Player.name := Some name;
                     Player.handedness := Some handedness;
                     Player.mlb_id := Some mlb_id |};
          position := Some position |}.

Definition record (self : t) : gmap string pyval :=
  let r := Player.record (base self) in
  unpack_both r (dict [("Position", of_str (position self))]).

End Pitcher.

(** ** Teams *)

(** The bundle of regions a team is built from: the mapping with the keys
    [ids], [pitcher] and [rotation] that [Game._extract_object_html]
    assembles. *)
Module TeamDict.
Record t : Type := mk {
  ids : node;
  pitcher : node;
  rotation : node
}.
End TeamDict.

Module Team.

(** [oid] is the identity of the object: [Team] defines no [__eq__], so
    [==] on teams compares identities. *)
Record t : Type := mk {
  oid : nat;
  name : pystr;
  abbreviation : pystr;
  pitcher : Pitcher.t;
  rotation : list Batter.t
}.

Definition eq (a b : t) : bool := Nat.eqb (oid a) (oid b).

Definition _is_valid_rotation (container : node) : bool :=
  negb (Py.contains (lit "no lineup released") (Py.lower (get_text container))).

Definition _parse_abbreviation (container : node) : result pystr :=
  a ← deref (select_one (Name "a") container);
  match attr "href" a with
  | None => Raise AttributeError
  | Some team_link =>
      seg ← Py.index_last (Py.split (ch "/") team_link);
      Ok (Py.upper seg)
  end.

Definition _parse_name (container : node) : result pystr :=
  d ← deref (select_one (Name "div") container);
  Ok (Py.strip (get_text d)).

Definition _parse_pitcher (html : node) : result Pitcher.t :=
  Pitcher.__init__ html.

(** The loop of [_parse_rotation]; [batter] is the loop's local
    variable, unbound ([None]) until the first iteration assigns it. *)
Fixpoint rotation_loop (player_containers : list node)
    (batter : option Batter.t) (rotation : list Batter.t)
  : result (option Batter.t * list Batter.t) :=
  match player_containers with
  | [] => Ok (batter, rotation)
  | p :: rest =>
      b ← Batter.__init__ p;
      rotation_loop rest (Some b) (rotation ++ [b])
  end.

Definition _parse_rotation (container : node) : result (list Batter.t) :=
  let rotation := [] in
  if _is_valid_rotation container then
    let player_containers := select (Class "player") container in
    '(batter, rotation) ← rotation_loop player_containers None rotation;
    match batter with
    | Some b => Ok (rotation ++ [b])
    | None => Raise UnboundLocalError
    end
  else Ok rotation.

Definition _add_record (self : t) (player_record : gmap string pyval)
  : gmap string pyval :=
  unpack_both (dict [("Team Name", PStr (name self));
                     ("Team Abbreviation", PStr (abbreviation self))])
              player_record.

Definition records (self : t) : list (gmap string pyval) :=
  let rs := [Pitcher.record (pitcher self)] in
  let rs := rs ++ map Batter.record (rotation self) in
  map (_add_record self) rs.

Definition parse (team_dict : TeamDict.t)
  : result (pystr * pystr * Pitcher.t * list Batter.t) :=
  name ← _parse_name (TeamDict.ids team_dict);
  abbreviation ← _parse_abbreviation (TeamDict.ids team_dict);
  pitcher ← _parse_pitcher (TeamDict.pitcher team_dict);
  rotation ← _parse_rotation (TeamDict.rotation team_dict);
  Ok (name, abbreviation, pitcher, rotation).

(** [fresh] is the identity the new object receives. *)
Definition __init__ (fresh : nat) (team_dict : TeamDict.t) : result t :=
  '(name, abbreviation, pitcher, rotation) ← parse team_dict;
  Ok {| oid := fresh; name := name; abbreviation := abbreviation;
        pitcher := pitcher; rotation := rotation |}.

End Team.

(** ** Games *)

Module Game.

Record t : Type := mk {
  home : Team.t;
  away : Team.t;
  time : pystr;
  farenheit : option Z;
  precipitation : option Z
}.

(** The regions of the [game] entry of the bundle. *)
Record game_dict : Type := mk_game_dict {
  gd_time : node;
  gd_farenheit : node;
  gd_precipitation : node
}.

(** The merged bundle: the [game] entry and the two [teams] entries,
    home first. *)
Record object_html : Type := mk_object_html {
  oh_game : game_dict;
  oh_home : TeamDict.t;
  oh_away : TeamDict.t
}.

Definition _parse_time (container : node) : result pystr :=
  d ← Py.index_last (select (Name "div") container);
  Ok (Py.strip (get_text d)).

Definition _parse_farenheit (div : node) : result (option Z) :=
  extract_int (get_text div).

Definition _parse_precipitation (div : node) : result (option Z) :=
  extract_int (get_text div).

(** One [Team] per entry of the bundle, in insertion order; [next] is
    the first unused object identity. *)
Fixpoint _parse_teams (next : nat) (team_dicts : list TeamDict.t)
  : result (list Team.t * nat) :=
  match team_dicts with
  | [] => Ok ([], next)
  | td :: rest =>
      team ← Team.__init__ next td;
      '(teams, next') ← _parse_teams (S next) rest;
      Ok (team :: teams, next')
  end.

Definition _parse_game (gd : game_dict)
  : result (pystr * option Z * option Z) :=
  time ← _parse_time (gd_time gd);
  farenheit ← _parse_farenheit (gd_farenheit gd);
  precipitation ← _parse_precipitation (gd_precipitation gd);
  Ok (time, farenheit, precipitation).

(** Header: game time, identity columns and pitcher regions. *)
Definition _parse_header (html : option node)
  : result (node * (node * node) * (node * node)) :=
  html ← deref html;
  let rows := select (Class "row") html in
  teams_and_gametime ← Py.index0 rows;
  let cols := select (Class "col") teams_and_gametime in
  gametime ← Py.index1 cols;
  home_ids ← Py.index0 cols;
  away_ids ← Py.index_last cols;
  pitchers_row ← Py.index1 rows;
  '(home_pitcher, away_pitcher) ← Py.unpack2 (select (Class "player") pitchers_row);
  Ok (gametime, (home_ids, home_pitcher), (away_ids, away_pitcher)).

Definition _parse_body (html : option node) : result (node * node) :=
  html ← deref html;
  '(home_rotation, away_rotation) ← Py.unpack2 (select (Class "col") html);
  Ok (home_rotation, away_rotation).

Definition _parse_footer (html : option node) : result (node * node) :=
  html ← deref html;
  col ← deref (select_one (Class "col-8") html);
  let divs := select (Name "div") col in
  farenheit ← Py.index0 divs;
  precipitation ← Py.index1 divs;
  Ok (farenheit, precipitation).

Definition _extract_object_html (soup : node) : result object_html :=
  let game_header := select_one (Class "lineup-card-header") soup in
  let game_body := select_one (Class "lineup-card-body") soup in
  let game_footer := select_one (Class "lineup-card-footer") soup in
  '(gametime, (home_ids, home_pitcher), (away_ids, away_pitcher))
    ← _parse_header game_header;
  '(home_rotation, away_rotation) ← _parse_body game_body;
  '(farenheit, precipitation) ← _parse_footer game_footer;
  Ok {| oh_game := {| gd_time := gametime;
                      gd_farenheit := farenheit;
                      gd_precipitation := precipitation |};
        oh_home := {| TeamDict.ids := home_ids;
                      TeamDict.pitcher := home_pitcher;
                      TeamDict.rotation := home_rotation |};
        oh_away := {| TeamDict.ids := away_ids;
                      TeamDict.pitcher := away_pitcher;
                      TeamDict.rotation := away_rotation |} |}.

Definition teams (self : t) : list Team.t := [home self; away self].

(** The loop of [_parse_rotations] over the zipped pairs: every rotation
is parsed and the result dropped. *)
Fixpoint parse_each (pairs : list (node * Team.t)) : result unit :=
  match pairs with
  | [] => Ok ()
  | (r, _) :: rest => _ ← Team._parse_rotation r; parse_each rest
  end.

Definition _parse_rotations (self : t) (rotations_containers : list node)
  : result unit :=
  parse_each (zip rotations_containers (teams self)).

Definition parse (next : nat) (soup : node)
  : result (Team.t * Team.t * pystr * option Z * option Z * nat) :=
  oh ← _extract_object_html soup;
  '(built, next') ← _parse_teams next [oh_home oh; oh_away oh];
  '(home, away) ← Py.unpack2 built;
  '(time, farenheit, precipitation) ← _parse_game (oh_game oh);
  Ok (home, away, time, farenheit, precipitation, next').

Definition __init__ (next : nat) (soup : node) : result (t * nat) :=
  '(home, away, time, farenheit, precipitation, next') ← parse next soup;
  Ok ({| home := home; away := away; time := time;
         farenheit := farenheit; precipitation := precipitation |}, next').

Definition _add_record (self : t) (team_record : gmap string pyval)
    (opp : Team.t) (is_home : bool) : gmap string pyval :=
  unpack_both
    (dict [("Time", PStr (time self));
           ("Farenheit", of_int (farenheit self));
           ("Precipitation", of_int (precipitation self));
           ("Is Home", PBool is_home);
           ("Opponent Name", PStr (Team.name opp));
           ("Opponent Abbreviation", PStr (Team.abbreviation opp))])
    team_record.

Definition add_team_records (self : t) (team opp : Team.t)
  : list (gmap string pyval) :=
  map (fun r => _add_record self r opp (Team.eq team (home self)))
      (Team.records team).

Definition records (self : t) : list (gmap string pyval) :=
  let rs := [] in
  let rs := rs ++ add_team_records self (home self) (away self) in
  let rs := rs ++ add_team_records self (away self) (home self) in
  rs.

End Game.

(** ** The games of a date *)

Module DateGames.

(** [raw] stands for the stored markup, as the tree [_gen_soup] builds
    from it. *)
Record t : Type := mk {
  date : pystr;
  games : list Game.t;
  _records : list (gmap string pyval);
  raw : node
}.

Definition _validate_games (games : list node) : list node :=
  List.filter
    (fun g => match attr "data-league" g with Some _ => true | None => false end)
    games.

(** The loop of [_find_games] over the containers. *)
Fixpoint find_in (containers : list node) : list node :=
  match containers with
  | [] => []
  | c :: rest =>
      match select_one (Class "lineups") c with
      | Some games_container =>
          _validate_games (select (Class "lineup-col") games_container)
      | None => find_in rest
      end
  end.

Definition _find_games (soup : node) : list node :=
  find_in (select (ChildOf "ccm-page" "container") soup).

Fixpoint _scrape_games (next : nat) (game_containers : list node)
  : result (list Game.t * nat) :=
  match game_containers with
  | [] => Ok ([], next)
  | gc :: rest =>
      '(game, next') ← Game.__init__ next gc;
      '(games, next'') ← _scrape_games next' rest;
      Ok (game :: games, next'')
  end.

Definition no_games : exn :=
  ValueError (Text "No games discovered on this date.").

(** Returns the games and the object, whose [games] are set when they
    were empty. *)
Definition parse (next : nat) (self : t) : result (list Game.t * t * nat) :=
  let soup := raw self in
  let game_containers := _find_games soup in
  match game_containers with
  | [] => Raise no_games
  | _ =>
      '(games, next') ← _scrape_games next game_containers;
      let self :=
        match DateGames.games self with
        | [] => {| date := date self; games := games;
                   _records := _records self; raw := raw self |}
        | _ => self
        end in
      Ok (games, self, next')
  end.

(** [today] is the calendar's date and [scraped] the fetched page, both
    obtained from outside; [next] is the first unused object identity. *)
Definition __init__ (today : pystr) (scraped : node) (next : nat)
    (date_str : pystr) (parse_flag : bool) : result (t * nat) :=
  let self := {| date := if Py.is_empty date_str then today else date_str;
                 games := []; _records := []; raw := scraped |} in
  if parse_flag then
    '(games, self, next') ← parse next self;
    Ok ({| date := date self; games := games;
           _records := _records self; raw := raw self |}, next')
  else Ok (self, next).

(** The records and the object after the call: the first non-empty
    result is kept in [_records]. *)
Definition records (self : t) : list (gmap string pyval) * t :=
  match _records self with
  | _ :: _ => (_records self, self)
  | [] =>
      let records := flat_map Game.records (games self) in
      let records := map (fun r => <["Date" := PStr (date self)]> r) records in
      (records, {| date := date self; games := games self;
                   _records := records; raw := raw self |})
  end.

End DateGames.

(** ** Notions of the specification *)

(** No character of [s] is a decimal digit. *)
Definition no_digit (s : pystr) : Prop :=
  Py.str_forall (fun c => negb (Py.isdigit c)) s = true.

(** Every character of [s] is a decimal digit. *)
Definition all_digits (s : pystr) : Prop :=
  Py.str_forall Py.isdigit s = true.

(** [post] does not continue a run of digits. *)
Definition stops_run (post : pystr) : Prop :=
  match post with
  | [] => True
  | c :: _ => Py.isdigit c = false
  end.

(** The integer a string of decimal digits denotes, by position. *)
Fixpoint decimal (s : pystr) : Z :=
  match s with
  | [] => 0%Z
  | c :: s' =>
      (Py.digit_value c * 10 ^ Z.of_nat (length s') + decimal s')%Z
  end.

(** [run] is the first contiguous run of decimal digits of [text]. *)
Definition first_digit_run (text run : pystr) : Prop :=
  exists pre post,
    text = pre ++ run ++ post /\ no_digit pre /\
    run <> [] /\ all_digits run /\ stops_run post.

(** [text] contains [marker]. *)
Definition occurs_in (marker text : pystr) : Prop :=
  exists pre post, text = pre ++ marker ++ post.

(** [text] contains [marker] in some letter case. *)
Definition contains_any_case (marker text : pystr) : Prop :=
  exists pre m post, text = pre ++ m ++ post /\ Py.lower m = marker.

(** The records of a team's players before any context is added: the
    pitcher's, then the rotation's in order. *)
Definition player_records (team : Team.t) : list (gmap string pyval) :=
  Pitcher.record (Team.pitcher team) :: map Batter.record (Team.rotation team).

(** The context every record of a game carries. *)
Definition game_context (g : Game.t) (team opp : Team.t) (is_home : bool)
  : gmap string pyval :=
  dict [("Team Name", PStr (Team.name team));
        ("Team Abbreviation", PStr (Team.abbreviation team));
        ("Time", PStr (Game.time g));
        ("Farenheit", of_int (Game.farenheit g));
        ("Precipitation", of_int (Game.precipitation g));
        ("Is Home", PBool is_home);
        ("Opponent Name", PStr (Team.name opp));
        ("Opponent Abbreviation", PStr (Team.abbreviation opp))].

(** The number of rows a game contributes: per team, one for the pitcher
    and one for every entry of the parsed rotation (which, for a released
    lineup, holds the last batter twice). *)
Definition rows_of_game (g : Game.t) : nat :=
  (length (Team.rotation (Game.home g)) + 1)
  + (length (Team.rotation (Game.away g)) + 1).

(** The batters a rotation region lists: its player sub-regions, none
    when it carries the unreleased-lineup marker. *)
Definition region_batters (rotation_region : node) : nat :=
  if Team._is_valid_rotation rotation_region
  then length (select (Class "player") rotation_region)
  else 0.


(** [body] is written with decimal digits, a single underscore allowed
    between two digits, and denotes [n] in base ten. *)
Inductive numeral : pystr -> Z -> Prop :=
| numeral_digit (c : N) :
    Py.isdigit c = true -> numeral [c] (Py.digit_value c)
| numeral_more (s : pystr) (n : Z) (c : N) :
    numeral s n -> Py.isdigit c = true ->
    numeral (s ++ [c]) (10 * n + Py.digit_value c)
| numeral_underscore (s : pystr) (n : Z) (c : N) :
    numeral s n -> Py.isdigit c = true ->
    numeral (s ++ [ch "_"; c]) (10 * n + Py.digit_value c).

(** [v] is numeric and denotes [z]: a numeral, with one optional sign in
    front, between optional white space. *)
Definition numeric (v : pystr) (z : Z) : Prop :=
  exists lead sign body trail n,
    v = lead ++ sign ++ body ++ trail /\
    Py.str_forall Py.int_space lead = true /\
    Py.str_forall Py.int_space trail = true /\
    numeral body n /\
    ((sign = [] \/ sign = [ch "+"]) /\ z = n \/
     sign = [ch "-"] /\ z = (- n)%Z).

(** [r] raises nothing but exceptions that satisfy [P]. *)
Definition raises_only {A} (P : exn -> Prop) (r : result A) : Prop :=
  forall e, r = Raise e -> P e.

(** An exception other than the one [DateGames.parse] raises when it
    finds no game. *)
Definition other_than_no_games (e : exn) : Prop := e <> DateGames.no_games.

(** The game cards of a document that carry the league marker: the
    elements of class [lineup-col] with a [data-league] attribute,
    wherever they are in the document. *)
Definition league_cards (soup : node) : list node :=
  List.filter
    (fun n => has_class "lineup-col" n && bool_decide (is_Some (attr "data-league" n)))
    (descendants soup).

(** The top-level extraction of a document, run by [DateGames.parse] on
    an object that stores it or by the constructor, fails with the
    no-games exception. *)
Definition reports_no_games (scraped : node) : Prop :=
  (forall next self,
     DateGames.raw self = scraped ->
     DateGames.parse next self = Raise DateGames.no_games) /\
  (forall today next date_str,
     DateGames.__init__ today scraped next date_str true
     = Raise DateGames.no_games).

(** The top-level extraction of a document never raises the no-games
    exception. *)
Definition never_reports_no_games (scraped : node) : Prop :=
  (forall next self,
     DateGames.raw self = scraped ->
     DateGames.parse next self <> Raise DateGames.no_games) /\
  (forall today next date_str,
     DateGames.__init__ today scraped next date_str true
     <> Raise DateGames.no_games).

(** The no-games failure read as a condition of its own: told apart by
    its class, as an [except] clause would, from every failure of a
    document that has a valid card. *)
Definition no_games_has_own_class : Prop :=
  forall today scraped next date_str e,
    league_cards scraped <> [] ->
    DateGames.__init__ today scraped next date_str true = Raise e ->
    class_of e <> class_of DateGames.no_games.

(** The no-games failure read as never raised for a document that has a
    valid card. *)
Definition no_games_only_without_cards : Prop :=
  forall today scraped next date_str,
    league_cards scraped <> [] ->
    DateGames.__init__ today scraped next date_str true
    <> Raise DateGames.no_games.

(** ** Further notions *)

(** No character of [s] is [c]. *)
Definition lacks_char (c : N) (s : pystr) : Prop :=
  Py.str_forall (fun d => negb (d =? c)%N) s = true.

(** No character of [s] is a line boundary. *)
Definition single_line (s : pystr) : Prop :=
  Py.str_forall (fun d => negb (Py.islinebreak d)) s = true.

(** [s] is not empty and neither starts nor ends with white space. *)
Definition trimmed (s : pystr) : Prop :=
  s <> [] /\ Py.strip s = s.

(** [s] is empty or white space only. *)
Definition blank (s : pystr) : bool := Py.str_forall Py.isspace_char s.

(** [sep.join(pieces)] for a one-character [sep]. *)
Fixpoint join (sep : N) (pieces : list pystr) : pystr :=
  match pieces with
  | [] => []
  | [p] => p
  | p :: rest => p ++ sep :: join sep rest
  end.

(** The field names every record of [DateGames.records] carries. *)
Definition common_keys : list string :=
  ["ID"; "Name"; "Handedness"; "Position";
   "Team Name"; "Team Abbreviation";
   "Time"; "Farenheit"; "Precipitation"; "Is Home";
   "Opponent Name"; "Opponent Abbreviation"; "Date"].

(** The pitcher of an unannounced start. *)
Definition placeholder : Pitcher.t :=
  {| Pitcher.base := Player.__init__; Pitcher.position := None |}.

(** The element a player's name is read from: the first element of class
    [desktop-name] inside the link when there is one, the link itself
    otherwise. *)
Definition name_source (a : node) : node :=
  match select_one (Class "desktop-name") a with
  | Some span => span
  | None => a
  end.

(** The regions of a game card, named by what is read from them. *)
Record card_regions : Type := mk_card_regions {
  home_ids : node;
  time_col : node;
  away_ids : node;
  home_pitcher : node;
  away_pitcher : node;
  home_rotation : node;
  away_rotation : node;
  farenheit_div : node;
  precipitation_div : node
}.

(** Where the regions sit in a card: the first three structural elements
    are the first of their class; the rows are those of the header, the
    identity and time columns those of its first row (home first, time
    second, away last), the pitchers the two player regions of its second
    row, the rotations the two columns of the body, and the weather values
    the first two [div] elements of the footer's [col-8] column. *)
Definition card_layout (soup : node) (cr : card_regions) : Prop :=
  exists header body footer row0 row1 rows cols col divs,
    select_one (Class "lineup-card-header") soup = Some header /\
    select (Class "row") header = row0 :: row1 :: rows /\
    select (Class "col") row0 = home_ids cr :: time_col cr :: cols /\
    last (home_ids cr :: time_col cr :: cols) = Some (away_ids cr) /\
    select (Class "player") row1 = [home_pitcher cr; away_pitcher cr] /\
    select_one (Class "lineup-card-body") soup = Some body /\
    select (Class "col") body = [home_rotation cr; away_rotation cr] /\
    select_one (Class "lineup-card-footer") soup = Some footer /\
    select_one (Class "col-8") footer = Some col /\
    select (Name "div") col = farenheit_div cr :: precipitation_div cr :: divs.

(** The bundle [Game._extract_object_html] assembles from the regions. *)
Definition bundle (cr : card_regions) : Game.object_html :=
  {| Game.oh_game := {| Game.gd_time := time_col cr;
                        Game.gd_farenheit := farenheit_div cr;
                        Game.gd_precipitation := precipitation_div cr |};
     Game.oh_home := {| TeamDict.ids := home_ids cr;
                        TeamDict.pitcher := home_pitcher cr;
                        TeamDict.rotation := home_rotation cr |};
     Game.oh_away := {| TeamDict.ids := away_ids cr;
                        TeamDict.pitcher := away_pitcher cr;
                        TeamDict.rotation := away_rotation cr |} |}.

(** A record with the date: it maps ["Date"] to the date, has every
    common field, and has no field beyond them except, for a batter,
    ["Order"]. *)
Definition full_record (date : pystr) (r : gmap string pyval) : Prop :=
  r !! "Date" = Some (PStr date) /\
  Forall (fun k => is_Some (r !! k)) common_keys /\
  (dom r = list_to_set common_keys \/
   dom r = list_to_set ("Order" :: common_keys)).

(** The records the specification expects of a card: per team, its
    batters and one pitcher. *)
Definition card_records (cr : card_regions) : nat :=
  (region_batters (home_rotation cr) + 1)
  + (region_batters (away_rotation cr) + 1).



(** [self.raw = raw]. *)
Definition set_raw (self : DateGames.t) (raw : node) : DateGames.t :=
  {| DateGames.date := DateGames.date self;
     DateGames.games := DateGames.games self;
     DateGames._records := DateGames._records self;
     DateGames.raw := raw |}.

(** ** Sample markup *)

Module Sample.

Definition nl : pystr := [10%N].

Definition text (s : string) : node := NavigableString (nl ++ lit s ++ nl).

Definition div (classes : list string) (contents : list node) : node :=
  Tag "div" classes ∅ contents.

(** A player region: the order line (batters only), the linked name and
    the stat line. *)
Definition player (order_line : option string) (mlb : string)
    (name stat_line : string) : node :=
  div ["player"]
    (match order_line with Some o => [text o] | None => [] end
     ++ [Tag "a" ["player-link"] {[ "data-mlb" := lit mlb ]} [text name];
         text stat_line]).

Definition tbd_pitcher : node := div ["player"] [text "TBD"].

Definition cole : node := player None "543037" "Gerrit Cole" "(R)".

Definition lemahieu : node := player (Some "1.") "518934" "DJ LeMahieu" "(R) 2B".

Definition judge : node := player (Some "2.") "592450" "Aaron Judge" "(R) RF".


(** A player region without any text, and one whose text is a no-break
    space. *)
Definition blank_player : node := div ["player"] [NavigableString nl].

Definition nbsp_player : node := div ["player"] [NavigableString [160%N]].



Definition ids (href name : string) : node :=
  div ["col"] [Tag "a" [] {[ "href" := lit href ]} [div [] [text name]]].

(** An identity region whose link ends in a sharp s, which has no
    upper-case letter of its own. *)
Definition sharp_s_ids : node :=
  div ["col"] [Tag "a" [] {[ "href" := lit "/teams/" ++ [223%N] ]}
                 [div [] [text "Strasse"]]].

Definition released_rotation : node := div ["col"] [lemahieu; judge].

Definition one_batter_rotation : node := div ["col"] [lemahieu].

Definition unreleased_rotation : node := div ["col"] [text "No Lineup Released"].

(** A rotation region without the marker and without players. *)
Definition empty_rotation : node := div ["col"] [text "Lineup"].

Definition time_column : node :=
  div ["col"] [div [] [text "Game time"; div [] [text "7:05 pm ET"]]].

Definition header (pitchers : list node) : node :=
  div ["lineup-card-header"]
    [div ["row"]
       [ids "/teams/nyy" "Yankees"; time_column; ids "/teams/bos" "Red Sox"];
     div ["row"] pitchers].

Definition body : node :=
  div ["lineup-card-body"] [div ["row"] [released_rotation; unreleased_rotation]].

Definition temperature : node := div [] [text "72 F"].

Definition precipitation : node := div [] [text "Rain:"].

Definition footer : node :=
  div ["lineup-card-footer"] [div ["col-8"] [temperature; precipitation]].

Definition card (pitchers : list node) : node :=
  Tag "div" ["lineup-col"] {[ "data-league" := lit "MLB" ]}
    [div ["lineup-card"] [header pitchers; body; footer]].

(** The regions of [card [home; away]]. *)
Definition regions (home away : node) : card_regions :=
  {| home_ids := ids "/teams/nyy" "Yankees";
     time_col := time_column;
     away_ids := ids "/teams/bos" "Red Sox";
     home_pitcher := home;
     away_pitcher := away;
     home_rotation := released_rotation;
     away_rotation := unreleased_rotation;
     farenheit_div := temperature;
     precipitation_div := precipitation |}.

(** A card of the same structural class without the league marker. *)
Definition promo_card : node := div ["lineup-col"] [text "Advertisement"].

Definition page (cards : list node) : node :=
  Tag "[document]" [] ∅
    [Tag "html" [] ∅
       [Tag "body" ["ccm-page"] ∅
          [div ["container"] [text "Navigation"];
           div ["container"] [div ["lineups"] cards]]]].

(** Two lineups sections: the first holds no valid card, the second
    one. *)
Definition two_section_page : node :=
  Tag "[document]" [] ∅
    [Tag "body" ["ccm-page"] ∅
       [div ["container"] [div ["lineups"] [promo_card]];
        div ["container"] [div ["lineups"] [card [tbd_pitcher; cole]]]]].

(** One well-formed game: home pitcher not announced, away lineup not
    released. *)
Definition good_page : node := page [promo_card; card [tbd_pitcher; cole]].

(** The same page once the away lineup is released too. *)
Definition later_page : node :=
  page [Tag "div" ["lineup-col"] {[ "data-league" := lit "MLB" ]}
          [div ["lineup-card"]
             [header [cole; cole];
              div ["lineup-card-body"]
                [div ["row"] [released_rotation; one_batter_rotation]];
              footer]]].

(** No card carries the league marker. *)
Definition offseason_page : node := page [promo_card].

(** One valid card whose pitcher row holds no player region. *)
Definition malformed_page : node := page [card []].

End Sample.

(** ** Auxiliary facts *)

(** *** Results *)

Lemma bind_Ok {A B} (r : result A) (k : A -> result B) (b : B) :
  (r ≫= k) = Ok b -> exists a, r = Ok a /\ k a = Ok b.
Proof. destruct r as [a|e]; [eauto | discriminate]. Qed.

Tactic Notation "inv_bind" hyp(H) :=
  let a := fresh "a" in
  let Ha := fresh "Ha" in
  apply bind_Ok in H as (a & Ha & H).

Tactic Notation "inv_bind" hyp(H) "as" simple_intropattern(a) ident(Ha) :=
  apply bind_Ok in H as (a & Ha & H).

(** *** The tables *)

Lemma mem_In (c : N) (l : list N) : Py.mem c l = true <-> In c l.
Proof.
  unfold Py.mem. rewrite existsb_exists. split.
  - intros (x & Hx & ->%N.eqb_eq). done.
  - intros H. exists c. split; [done|apply N.eqb_refl].
Qed.

(** A property of every entry of a table, checked on the table. *)
Lemma mem_forallb (p : N -> bool) (l : list N) (c : N) :
  forallb p l = true -> Py.mem c l = true -> p c = true.
Proof. rewrite forallb_forall, mem_In. auto. Qed.

Lemma space_not_digit c : Py.isspace_char c = true -> Py.isdigit c = false.
Proof.
  intros H. apply negb_true_iff.
  apply (mem_forallb (fun x => negb (Py.isdigit x)) Py.white_space); [|exact H].
  vm_compute; reflexivity.
Qed.

Lemma digit_not_space c : Py.isdigit c = true -> Py.isspace_char c = false.
Proof.
  intros H. destruct (Py.isspace_char c) eqn:Hs; [|done].
  apply space_not_digit in Hs. congruence.
Qed.

Lemma int_space_is_space c : Py.int_space c = true -> Py.isspace_char c = true.
Proof.
  unfold Py.int_space. intros [H|H]%orb_prop.
  - apply (mem_forallb Py.isspace_char [9; 10; 11; 12; 13; 32]%N); [|exact H].
    vm_compute; reflexivity.
  - by apply andb_prop in H as [_ ?].
Qed.

Lemma digit_not_int_space c : Py.isdigit c = true -> Py.int_space c = false.
Proof.
  intros H. destruct (Py.int_space c) eqn:Hs; [|done].
  apply int_space_is_space, space_not_digit in Hs. congruence.
Qed.

Lemma digit_not (a : N) c :
  Py.isdigit a = false -> Py.isdigit c = true -> (c =? a)%N = false.
Proof.
  intros Ha Hc. destruct (c =? a)%N eqn:E; [|done].
  apply N.eqb_eq in E. congruence.
Qed.

Lemma linebreak_is_space c : Py.islinebreak c = true -> Py.isspace_char c = true.
Proof.
  apply (mem_forallb Py.isspace_char Py.line_boundaries).
  vm_compute; reflexivity.
Qed.

Lemma carriage_return_is_space c :
  (c =? 13)%N = true -> Py.isspace_char c = true.
Proof. by intros ->%N.eqb_eq. Qed.

Lemma digit_value_nonneg c : (0 <= Py.digit_value c)%Z.
Proof. unfold Py.digit_value. destruct (Py.decimal_zero c); lia. Qed.

(** *** Strings *)

Lemma app_nil_l_str (s : pystr) : [] ++ s = s.
Proof. reflexivity. Qed.

Lemma app_cons_str (c : N) (s t : pystr) : (c :: s) ++ t = c :: (s ++ t).
Proof. reflexivity. Qed.

Lemma int_digits_decimal s : forall acc,
  all_digits s ->
  Py.int_digits acc s
  = Some (acc * 10 ^ Z.of_nat (length s) + decimal s)%Z.
Proof.
  unfold all_digits. induction s as [|c s IH]; intros acc H; simpl.
  - f_equal. lia.
  - simpl in H. apply andb_prop in H as [Hc Hs]. rewrite Hc.
    rewrite IH by done.
    f_equal. rewrite Nat2Z.inj_succ, Z.pow_succ_r by lia. lia.
Qed.

(** [int] never fails on a run of digits, and reads it in base ten. *)
Lemma int_of_str_digits run :
  run <> [] -> all_digits run -> Py.int_of_str run = Ok (decimal run).
Proof.
  intros Hne Hd. unfold Py.int_of_str.
  destruct run as [|c r]; [done|].
  pose proof Hd as Hd'. unfold all_digits in Hd'. simpl in Hd'.
  apply andb_prop in Hd' as [Hc Hr].
  simpl. rewrite (digit_not_int_space c Hc).
  rewrite (digit_not 45 c eq_refl Hc), (digit_not 43 c eq_refl Hc).
  simpl. rewrite Hc. by rewrite int_digits_decimal.
Qed.

Lemma digit_run_all_digits s : all_digits (Py.digit_run s).
Proof.
  unfold all_digits. induction s as [|c s IH]; simpl; [done|].
  destruct (Py.isdigit c) eqn:Hc; simpl; [by rewrite Hc|done].
Qed.

(** A text splits into its leading digits and a rest that does not start
    with a digit. *)
Lemma digit_run_split s :
  exists post, s = Py.digit_run s ++ post /\ stops_run post.
Proof.
  induction s as [|c s (post & Heq & Hpost)]; simpl.
  - by exists [].
  - destruct (Py.isdigit c) eqn:Hc.
    + exists post. split; [|done]. simpl. by f_equal.
    + exists (c :: s). by split.
Qed.

Lemma digit_run_app run post :
  all_digits run -> stops_run post -> Py.digit_run (run ++ post) = run.
Proof.
  unfold all_digits. induction run as [|c r IH]; simpl; intros Hd Hp.
  - destruct post as [|d p]; [done|]. simpl in *. by rewrite Hp.
  - apply andb_prop in Hd as [Hc Hr]. rewrite Hc. f_equal. by apply IH.
Qed.

Lemma search_digits_no_digit s : no_digit s -> Py.search_digits s = None.
Proof.
  unfold no_digit. induction s as [|c s IH]; simpl; [done|].
  intros [Hc Hs]%andb_prop. apply negb_true_iff in Hc. rewrite Hc. auto.
Qed.

Lemma search_digits_first_run text run :
  first_digit_run text run -> Py.search_digits text = Some run.
Proof.
  intros (pre & post & -> & Hpre & Hne & Hd & Hpost).
  unfold no_digit in Hpre. induction pre as [|c pre IH].
  - destruct run as [|c r]; [done|].
    pose proof Hd as Hd'. unfold all_digits in Hd'. simpl in Hd'.
    apply andb_prop in Hd' as [Hc Hr].
    simpl. rewrite Hc. f_equal. f_equal.
    by apply digit_run_app.
  - simpl in Hpre. apply andb_prop in Hpre as [Hc Hs].
    apply negb_true_iff in Hc. simpl. rewrite Hc. auto.
Qed.

(** Every text either has no digit or has a first run of digits. *)
Lemma no_digit_or_first_run text :
  no_digit text \/ exists run, first_digit_run text run.
Proof.
  induction text as [|c s IH].
  - by left.
  - destruct (Py.isdigit c) eqn:Hc.
    + right. exists (c :: Py.digit_run s).
      destruct (digit_run_split s) as (post & Heq & Hpost).
      exists [], post. simpl. repeat split; try done.
      * by f_equal.
      * unfold all_digits. simpl. rewrite Hc. apply digit_run_all_digits.
    + destruct IH as [Hnd | (run & pre & post & Heq & Hpre & Hne & Hd & Hpost)].
      * left. unfold no_digit. simpl. by rewrite Hc.
      * right. exists run, (c :: pre), post.
        simpl. repeat split; try done.
        -- by f_equal.
        -- unfold no_digit. simpl. by rewrite Hc.
Qed.

Lemma extract_int_no_digit text : no_digit text -> extract_int text = Ok None.
Proof. intros H. unfold extract_int. by rewrite search_digits_no_digit. Qed.

Lemma extract_int_first_run text run :
  first_digit_run text run -> extract_int text = Ok (Some (decimal run)).
Proof.
  intros H. unfold extract_int. rewrite (search_digits_first_run _ _ H).
  destruct H as (pre & post & _ & _ & Hne & Hd & _).
  simpl. by rewrite int_of_str_digits.
Qed.

Lemma str_forall_app p (a b : pystr) :
  Py.str_forall p (a ++ b) = Py.str_forall p a && Py.str_forall p b.
Proof.
  induction a as [|d a IH]; [done|]. simpl. by rewrite IH, andb_assoc.
Qed.

Lemma str_forall_snoc p (s : pystr) c :
  Py.str_forall p (Py.snoc s c) = Py.str_forall p s && p c.
Proof.
  unfold Py.snoc. rewrite str_forall_app. simpl. by rewrite andb_true_r.
Qed.

(** *** Substrings and letter case *)

Lemma startswith_app (n post : pystr) : Py.startswith n (n ++ post) = true.
Proof.
  induction n as [|c n IH]; [done|]. simpl. by rewrite N.eqb_refl.
Qed.

Lemma startswith_split (n h : pystr) :
  Py.startswith n h = true -> exists post, h = n ++ post.
Proof.
  revert h. induction n as [|c n IH]; intros h H.
  - by exists h.
  - destruct h as [|d h]; [done|]. simpl in H.
    apply andb_prop in H as [->%N.eqb_eq H].
    destruct (IH h H) as [post ->]. by exists post.
Qed.

Lemma contains_prefix (n h : pystr) :
  Py.startswith n h = true -> Py.contains n h = true.
Proof. destruct h; simpl; by intros ->. Qed.

Lemma contains_app (n pre post : pystr) :
  Py.contains n (pre ++ n ++ post) = true.
Proof.
  induction pre as [|c pre IH].
  - apply contains_prefix, (startswith_app n post).
  - simpl. rewrite IH. apply orb_true_r.
Qed.

Lemma contains_split (n h : pystr) :
  Py.contains n h = true -> exists pre post, h = pre ++ n ++ post.
Proof.
  induction h as [|c h IH]; intros H.
  - destruct n; [|done]. by exists [], [].
  - cbn [Py.contains] in H. apply orb_prop in H as [H|H].
    + destruct (startswith_split _ _ H) as [post ->]. by exists [], post.
    + destruct (IH H) as (pre & post & ->). by exists (c :: pre), post.
Qed.

Lemma contains_iff (marker text : pystr) :
  Py.contains marker text = true <-> occurs_in marker text.
Proof.
  split; [apply contains_split|]. intros (pre & post & ->). apply contains_app.
Qed.

Lemma str_map_app f (a b : pystr) :
  Py.str_map f (a ++ b) = Py.str_map f a ++ Py.str_map f b.
Proof. induction a as [|c a IH]; [done|]. simpl. by f_equal. Qed.

Lemma str_map_app_inv f (s a b : pystr) :
  Py.str_map f s = a ++ b ->
  exists s1 s2, s = s1 ++ s2 /\ Py.str_map f s1 = a /\ Py.str_map f s2 = b.
Proof.
  revert s. induction a as [|c a IH]; intros s H.
  - by exists [], s.
  - destruct s as [|d s]; [done|]. simpl in H.
    injection H as Hc Hs. destruct (IH s Hs) as (s1 & s2 & -> & H1 & H2).
    exists (d :: s1), s2. simpl. by rewrite Hc, H1.
Qed.

(** The test of [_is_valid_rotation] finds the marker exactly when the
    text contains it in some letter case. *)
Lemma contains_lower_iff (marker text : pystr) :
  Py.contains marker (Py.lower text) = true <-> contains_any_case marker text.
Proof.
  split.
  - intros (pre' & post' & H)%contains_split.
    apply str_map_app_inv in H as (pre & rest & -> & _ & H).
    apply str_map_app_inv in H as (m & post & -> & Hm & _).
    by exists pre, m, post.
  - intros (pre & m & post & -> & <-).
    unfold Py.lower. rewrite !str_map_app. apply contains_app.
Qed.

Lemma valid_rotation_iff (container : node) :
  Team._is_valid_rotation container = true
  <-> ~ contains_any_case (lit "no lineup released") (get_text container).
Proof.
  unfold Team._is_valid_rotation. rewrite <- contains_lower_iff.
  rewrite negb_true_iff. by destruct (Py.contains _ _).
Qed.

(** *** The rotation loop *)


Lemma mapM_length {A B} (f : A -> result B) (xs : list A) (ys : list B) :
  mapM f xs = Ok ys -> length ys = length xs.
Proof.
  revert ys. induction xs as [|x xs IH]; intros ys H; simpl in *.
  - by simplify_eq.
  - inv_bind H. inv_bind H. simplify_eq. simpl. f_equal. by apply IH.
Qed.


Lemma rotation_without_players (container : node) :
  Team._is_valid_rotation container = true ->
  select (Class "player") container = [] ->
  Team._parse_rotation container = Raise UnboundLocalError.
Proof.
  intros Hv Hs. unfold Team._parse_rotation. by rewrite Hv, Hs.
Qed.

(** *** Numbers as [int] reads them *)

Lemma skip_int_space_app (lead rest : pystr) :
  Py.str_forall Py.int_space lead = true ->
  Py.skip_int_space (lead ++ rest) = Py.skip_int_space rest.
Proof.
  induction lead as [|c lead IH]; simpl; [done|].
  intros [Hc Hl]%andb_prop. rewrite Hc. auto.
Qed.

Lemma skip_int_space_split (s : pystr) :
  exists lead,
    s = lead ++ Py.skip_int_space s /\
    Py.str_forall Py.int_space lead = true.
Proof.
  induction s as [|c s (lead & Heq & Hlead)]; simpl.
  - by exists [].
  - destruct (Py.int_space c) eqn:Hc.
    + exists (c :: lead). simpl. rewrite Hc, Hlead. split; [by f_equal|done].
    + by exists [].
Qed.

Lemma numeral_head (body : pystr) (n : Z) :
  numeral body n -> exists c rest, body = c :: rest /\ Py.isdigit c = true.
Proof.
  induction 1 as [c Hc|s n c _ (d & rest & -> & Hd) Hc
                  |s n c _ (d & rest & -> & Hd) Hc]; simpl; eauto.
Qed.

Lemma int_digits_trail (n : Z) (trail : pystr) :
  Py.str_forall Py.int_space trail = true -> Py.int_digits n trail = Some n.
Proof.
  destruct trail as [|c t]; [done|]. intros H. pose proof H as H'.
  simpl in H'. apply andb_prop in H' as [Hc _].
  cbn [Py.int_digits]. rewrite H.
  rewrite (space_not_digit c (int_space_is_space c Hc)).
  destruct (c =? 95)%N eqn:E; [|done].
  apply N.eqb_eq in E as ->. vm_compute in Hc. discriminate Hc.
Qed.

Lemma int_literal_numeral (body : pystr) (n : Z) :
  numeral body n ->
  forall rest, Py.int_literal (body ++ rest) = Py.int_digits n rest.
Proof.
  induction 1 as [c Hc|s n c _ IH Hc|s n c _ IH Hc]; intros rest.
  - simpl. by rewrite Hc.
  - rewrite <- app_assoc, IH. simpl. by rewrite Hc.
  - rewrite <- app_assoc, IH. change (ch "_") with 95%N.
    cbn [app Py.int_digits].
    assert (Py.isdigit 95 = false) as -> by reflexivity.
    by rewrite N.eqb_refl, Hc.
Qed.

Lemma int_digits_inv (k : nat) : forall (s p : pystr) (acc n : Z),
  length s <= k ->
  numeral p acc ->
  Py.int_digits acc s = Some n ->
  exists body trail,
    p ++ s = body ++ trail /\ numeral body n /\
    Py.str_forall Py.int_space trail = true.
Proof.
  induction k as [|k IH]; intros s p acc n Hk Hp H.
  - destruct s; [|simpl in Hk; lia]. simpl in H. simplify_eq.
    exists p, []. by rewrite app_nil_r.
  - destruct s as [|c s]; simpl in H.
    { simplify_eq. exists p, []. by rewrite app_nil_r. }
    simpl in Hk. destruct (Py.isdigit c) eqn:Hc.
    { destruct (IH s (p ++ [c]) _ n ltac:(lia) (numeral_more _ _ _ Hp Hc) H)
        as (body & trail & Heq & Hbody & Htrail).
      exists body, trail. rewrite <- app_assoc in Heq. by split. }
    destruct (c =? 95)%N eqn:Hu.
    { apply N.eqb_eq in Hu as ->. destruct s as [|d s]; [done|].
      destruct (Py.isdigit d) eqn:Hd; [|done]. simpl in Hk.
      destruct (IH s (p ++ [ch "_"; d]) _ n ltac:(lia)
                  (numeral_underscore _ _ _ Hp Hd) H)
        as (body & trail & Heq & Hbody & Htrail).
      exists body, trail. rewrite <- app_assoc in Heq. by split. }
    destruct (Py.int_space c && Py.str_forall Py.int_space s) eqn:Hsp;
      [|done].
    simplify_eq. exists p, (c :: s). by split.
Qed.

Lemma int_literal_inv (s : pystr) (n : Z) :
  Py.int_literal s = Some n ->
  exists body trail,
    s = body ++ trail /\ numeral body n /\
    Py.str_forall Py.int_space trail = true.
Proof.
  destruct s as [|c s]; [done|]. simpl.
  destruct (Py.isdigit c) eqn:Hc; [|done]. intros H.
  apply (int_digits_inv (length s) s [c] _ n (le_n _) (numeral_digit c Hc) H).
Qed.

(** [int] accepts exactly the numeric texts, with their value. *)
Lemma int_of_str_numeric (v : pystr) (z : Z) :
  Py.int_of_str v = Ok z <-> numeric v z.
Proof.
  unfold Py.int_of_str. split.
  - destruct (skip_int_space_split v) as (lead & Hv & Hlead).
    destruct (Py.skip_int_space v) as [|c r] eqn:Ht; [done|].
    destruct (c =? 45)%N eqn:Hm.
    { apply N.eqb_eq in Hm as ->.
      destruct (Py.int_literal r) as [n|] eqn:Hlit; [|done].
      simpl. intros H. simplify_eq.
      apply int_literal_inv in Hlit as (body & trail & -> & Hbody & Htrail).
      exists lead, [ch "-"], body, trail, n. repeat split; try done.
      by right. }
    destruct (c =? 43)%N eqn:Hp.
    { apply N.eqb_eq in Hp as ->.
      destruct (Py.int_literal r) as [n|] eqn:Hlit; [|done].
      intros H. simplify_eq.
      apply int_literal_inv in Hlit as (body & trail & -> & Hbody & Htrail).
      exists lead, [ch "+"], body, trail, z. repeat split; try done.
      left. split; [by right|done]. }
    destruct (Py.int_literal (c :: r)) as [n|] eqn:Hlit; [|done].
    intros H. simplify_eq.
    apply int_literal_inv in Hlit as (body & trail & Heq & Hbody & Htrail).
    exists lead, [], body, trail, z. rewrite Heq.
    repeat split; try done. left. split; [by left|done].
  - intros (lead & sign & body & trail & n & -> & Hlead & Htrail & Hbody & Hsign).
    rewrite (skip_int_space_app _ _ Hlead).
    pose proof (int_literal_numeral _ _ Hbody trail) as Hlit.
    rewrite (int_digits_trail _ _ Htrail) in Hlit.
    destruct (numeral_head _ _ Hbody) as (c & rest & Hc & Hd).
    destruct Hsign as [[[->| ->] ->]|[-> ->]].
    + subst body. change ([] ++ (c :: rest) ++ trail) with (c :: rest ++ trail).
      cbn [Py.skip_int_space]. rewrite (digit_not_int_space c Hd).
      rewrite (digit_not 45 c eq_refl Hd), (digit_not 43 c eq_refl Hd).
      change (c :: rest ++ trail) with ((c :: rest) ++ trail).
      by rewrite Hlit.
    + change ([ch "+"] ++ body ++ trail) with (43%N :: body ++ trail).
      cbn [Py.skip_int_space].
      assert (Py.int_space 43 = false) as -> by reflexivity.
      change (43 =? 45)%N with false. change (43 =? 43)%N with true.
      cbn match. by rewrite Hlit.
    + change ([ch "-"] ++ body ++ trail) with (45%N :: body ++ trail).
      cbn [Py.skip_int_space].
      assert (Py.int_space 45 = false) as -> by reflexivity.
      change (45 =? 45)%N with true. cbn match. by rewrite Hlit.
Qed.

Lemma int_of_str_cases (v : pystr) :
  (exists z, Py.int_of_str v = Ok z) \/
  Py.int_of_str v = Raise (ValueError (InvalidLiteral v)).
Proof.
  unfold Py.int_of_str.
  match goal with
  | |- context [match ?x with Some _ => _ | None => _ end] => destruct x
  end; eauto.
Qed.



(** *** Identity parsing *)




(** *** Counting records *)

Lemma team_records_eq (team : Team.t) :
  Team.records team = map (Team._add_record team) (player_records team).
Proof. reflexivity. Qed.

Lemma team_records_length (team : Team.t) :
  length (Team.records team) = length (Team.rotation team) + 1.
Proof.
  rewrite team_records_eq. unfold player_records.
  rewrite length_map. simpl. rewrite length_map. lia.
Qed.

Lemma game_records_length (g : Game.t) :
  length (Game.records g) = rows_of_game g.
Proof.
  unfold Game.records, Game.add_team_records, rows_of_game. cbv zeta.
  by rewrite app_nil_l, length_app, !length_map, !team_records_length.
Qed.

Lemma flat_map_length_sum {A B} (f : A -> list B) (xs : list A) :
  length (flat_map f xs) = sum_list (map (fun x => length (f x)) xs).
Proof.
  induction xs as [|x xs IH]; simpl; [done|]. by rewrite length_app, IH.
Qed.

(** The object [__init__] returns after parsing has games and an empty
    record cache. *)
Lemma init_parsed (today : pystr) (scraped : node) (next : nat)
    (date_str : pystr) (dg : DateGames.t) (next' : nat) :
  DateGames.__init__ today scraped next date_str true = Ok (dg, next') ->
  DateGames.games dg <> [] /\ DateGames._records dg = [] /\
  DateGames._find_games scraped <> [] /\ DateGames.raw dg = scraped.
Proof.
  unfold DateGames.__init__, DateGames.parse. simpl.
  destruct (DateGames._find_games scraped) as [|gc gcs] eqn:Hfind; [done|].
  intros H. inv_bind H as [[games self] n] Hscrape.
  inv_bind Hscrape as [games' n'] Hgames. simplify_eq. simpl.
  simpl in Hgames. inv_bind Hgames as [game n1] Hgame.
  inv_bind Hgames as [rest n2] Hrest. by simplify_eq.
Qed.

(** *** Records of a game *)

Lemma team_init_oid (fresh : nat) (td : TeamDict.t) (team : Team.t) :
  Team.__init__ fresh td = Ok team -> Team.oid team = fresh.
Proof.
  unfold Team.__init__. intros H.
  inv_bind H as [[[name abbreviation] pitcher] rotation] Hparse.
  by simplify_eq.
Qed.

(** The two teams of a game are two objects. *)
Lemma game_init_oids (next : nat) (soup : node) (g : Game.t) (next' : nat) :
  Game.__init__ next soup = Ok (g, next') ->
  Team.oid (Game.home g) = next /\ Team.oid (Game.away g) = S next /\
  next' = S (S next).
Proof.
  unfold Game.__init__. intros H.
  inv_bind H as [[[[[home away] time] farenheit] precipitation] n] Hparse.
  simplify_eq. simpl. unfold Game.parse in Hparse.
  inv_bind Hparse as oh Hoh. inv_bind Hparse as [built n'] Hteams.
  inv_bind Hparse as [home' away'] Hunpack.
  inv_bind Hparse as [[time' farenheit'] precipitation'] Hgame. simplify_eq.
  simpl in Hteams. inv_bind Hteams as t1 Ht1. inv_bind Hteams as [ts n1] Hrest.
  simplify_eq. inv_bind Hrest as t2 Ht2. simplify_eq. simpl in Hunpack.
  simplify_eq. split; [|split]; [by eapply team_init_oid..|done].
Qed.

Lemma context_union (g : Game.t) (team opp : Team.t) (is_home : bool) :
  dict [("Team Name", PStr (Team.name team));
        ("Team Abbreviation", PStr (Team.abbreviation team))]
  ∪ dict [("Time", PStr (Game.time g));
          ("Farenheit", of_int (Game.farenheit g));
          ("Precipitation", of_int (Game.precipitation g));
          ("Is Home", PBool is_home);
          ("Opponent Name", PStr (Team.name opp));
          ("Opponent Abbreviation", PStr (Team.abbreviation opp))]
  = game_context g team opp is_home.
Proof.
  unfold game_context, dict, list_to_map. cbn [fold_right fst snd].
  by rewrite <- !insert_union_l, (left_id_L ∅ (∪)).
Qed.

(** The two merges put the context under the player's fields. *)
Lemma add_records_union (g : Game.t) (team opp : Team.t) (is_home : bool)
    (pr : gmap string pyval) :
  Game._add_record g (Team._add_record team pr) opp is_home
  = pr ∪ game_context g team opp is_home.
Proof.
  unfold Game._add_record, Team._add_record, unpack_both.
  by rewrite <- (assoc_L (∪)), context_union.
Qed.

Lemma player_record_disjoint (p : Player.t) (g : Game.t) (team opp : Team.t)
    (is_home : bool) :
  Player.record p ##ₘ game_context g team opp is_home.
Proof.
  unfold Player.record, dict, list_to_map. cbn [fold_right fst snd].
  rewrite !map_disjoint_insert_l.
  repeat split; try reflexivity. apply map_disjoint_empty_l.
Qed.

Lemma pitcher_record_disjoint (p : Pitcher.t) (g : Game.t) (team opp : Team.t)
    (is_home : bool) :
  Pitcher.record p ##ₘ game_context g team opp is_home.
Proof.
  unfold Pitcher.record, unpack_both. apply map_disjoint_union_l.
  split; [|apply player_record_disjoint].
  unfold dict, list_to_map. cbn [fold_right fst snd].
  rewrite !map_disjoint_insert_l.
  repeat split; try reflexivity. apply map_disjoint_empty_l.
Qed.

Lemma batter_record_disjoint (b : Batter.t) (g : Game.t) (team opp : Team.t)
    (is_home : bool) :
  Batter.record b ##ₘ game_context g team opp is_home.
Proof.
  unfold Batter.record, unpack_both. apply map_disjoint_union_l.
  split; [|apply player_record_disjoint].
  unfold dict, list_to_map. cbn [fold_right fst snd].
  rewrite !map_disjoint_insert_l.
  repeat split; try reflexivity. apply map_disjoint_empty_l.
Qed.

Lemma player_records_disjoint (t : Team.t) (g : Game.t) (team opp : Team.t)
    (is_home : bool) :
  Forall (fun pr => pr ##ₘ game_context g team opp is_home) (player_records t).
Proof.
  unfold player_records. constructor; [apply pitcher_record_disjoint|].
  apply Forall_map, Forall_forall. intros b _. apply batter_record_disjoint.
Qed.

Lemma add_team_records_eq (g : Game.t) (team opp : Team.t) :
  Game.add_team_records g team opp
  = map (fun pr => pr ∪ game_context g team opp (Team.eq team (Game.home g)))
        (player_records team).
Proof.
  unfold Game.add_team_records. rewrite team_records_eq, map_map.
  apply map_ext. intros pr. apply add_records_union.
Qed.

(** *** What the extraction of a card can raise *)

Create HintDb safe.

Section Raises.

Local Abbreviation safe := (raises_only other_than_no_games).

Lemma safe_Ok {A} (a : A) : safe (Ok a).
Proof. intros e H. discriminate H. Qed.

Lemma safe_bind {A B} (r : result A) (k : A -> result B) :
  safe r -> (forall a, safe (k a)) -> safe (r ≫= k).
Proof.
  intros Hr Hk e H. destruct r as [a|e']; simpl in H.
  - by apply (Hk a).
  - simplify_eq. by apply Hr.
Qed.

Lemma safe_deref o : safe (deref o).
Proof. intros e H. destruct o; simpl in H; by simplify_eq. Qed.

Lemma safe_index0 {A} (xs : list A) : safe (Py.index0 xs).
Proof. intros e H. destruct xs; simpl in H; by simplify_eq. Qed.

Lemma safe_index1 {A} (xs : list A) : safe (Py.index1 xs).
Proof. intros e H. destruct xs as [|? [|? ?]]; simpl in H; by simplify_eq. Qed.

Lemma safe_index_last {A} (xs : list A) : safe (Py.index_last xs).
Proof.
  intros e H. unfold Py.index_last in H. destruct (last xs); by simplify_eq.
Qed.

Lemma safe_unpack2 {A} (xs : list A) : safe (Py.unpack2 xs).
Proof.
  intros e H. destruct xs as [|? [|? [|? ?]]]; simpl in H; by simplify_eq.
Qed.

Lemma safe_int x : safe (Py.int x).
Proof.
  intros e H. destruct x as [s|]; simpl in H; [|by simplify_eq].
  destruct (int_of_str_cases s) as [[z Hz]|Hz]; rewrite Hz in H;
    by simplify_eq.
Qed.

Lemma safe_extract_int s : safe (extract_int s).
Proof.
  unfold extract_int. destruct (Py.search_digits s); [|apply safe_Ok].
  apply safe_bind; [apply safe_int | intros; apply safe_Ok].
Qed.

#[local] Hint Resolve safe_Ok safe_deref safe_index0 safe_index1 safe_index_last
  safe_unpack2 safe_int safe_extract_int : safe.

(** One step through a body: a bind, a destructuring of what was bound,
    or a branch. *)
Ltac safe_step :=
  match goal with
  | |- raises_only _ (_ ≫= _) => apply safe_bind; [|intros ?]
  | |- raises_only _ (match ?x with _ => _ end) => destruct x
  | |- raises_only _ (let (_, _) := ?x in _) => destruct x
  | |- raises_only _ (Raise ?e) => intros ? ?; by simplify_eq
  | |- _ => solve [eauto with safe]
  end.

Ltac safe_body := repeat safe_step.

Lemma safe_player_parse container : safe (Player.parse container).
Proof.
  unfold Player.parse, Player._parse_name, Player._parse_mlb_id. safe_body.
Qed.

#[local] Hint Resolve safe_player_parse : safe.

Lemma safe_batter_init soup : safe (Batter.__init__ soup).
Proof.
  unfold Batter.__init__, Batter.parse, Batter._parse_order. safe_body.
Qed.

Lemma safe_pitcher_init soup : safe (Pitcher.__init__ soup).
Proof. unfold Pitcher.__init__, Pitcher.parse. safe_body. Qed.

#[local] Hint Resolve safe_batter_init safe_pitcher_init : safe.

Lemma safe_rotation_loop ps : forall batter rotation,
  safe (Team.rotation_loop ps batter rotation).
Proof. induction ps as [|p ps IH]; intros; simpl; safe_body. Qed.

#[local] Hint Resolve safe_rotation_loop : safe.

Lemma safe_team_init fresh td : safe (Team.__init__ fresh td).
Proof.
  unfold Team.__init__, Team.parse, Team._parse_name,
    Team._parse_abbreviation, Team._parse_pitcher, Team._parse_rotation.
  safe_body.
Qed.

#[local] Hint Resolve safe_team_init : safe.

Lemma safe_parse_teams tds : forall next, safe (Game._parse_teams next tds).
Proof. induction tds as [|td tds IH]; intros; simpl; safe_body. Qed.

#[local] Hint Resolve safe_parse_teams : safe.

Lemma safe_game_init next soup : safe (Game.__init__ next soup).
Proof.
  unfold Game.__init__, Game.parse, Game._extract_object_html,
    Game._parse_header, Game._parse_body, Game._parse_footer,
    Game._parse_game, Game._parse_time, Game._parse_farenheit,
    Game._parse_precipitation.
  safe_body.
Qed.

#[local] Hint Resolve safe_game_init : safe.

Lemma safe_scrape_games gcs : forall next,
  safe (DateGames._scrape_games next gcs).
Proof. induction gcs as [|gc gcs IH]; intros; simpl; safe_body. Qed.

End Raises.

(** With a valid card, [parse] raises what the extraction of the cards
    raises. *)
Lemma parse_with_cards (next : nat) (self : DateGames.t) :
  DateGames._find_games (DateGames.raw self) <> [] ->
  raises_only other_than_no_games (DateGames.parse next self).
Proof.
  intros Hfind e H. unfold DateGames.parse in H.
  destruct (DateGames._find_games (DateGames.raw self)) as [|gc gcs]; [done|].
  destruct (DateGames._scrape_games next (gc :: gcs)) as [[games n]|e'] eqn:Hs.
  - discriminate H.
  - simpl in H. simplify_eq. by apply (safe_scrape_games _ _ _ Hs).
Qed.

(** ** Further auxiliary facts *)

(** *** Results *)

Lemma deref_Ok (o : option node) (n : node) : deref o = Ok n -> o = Some n.
Proof. destruct o; simpl; intros H; by simplify_eq. Qed.

Lemma index0_Ok {A} (xs : list A) (x : A) :
  Py.index0 xs = Ok x -> exists rest, xs = x :: rest.
Proof. destruct xs; simpl; intros H; simplify_eq. eauto. Qed.

Lemma index1_Ok {A} (xs : list A) (x : A) :
  Py.index1 xs = Ok x -> exists y rest, xs = y :: x :: rest.
Proof. destruct xs as [|y [|? ?]]; simpl; intros H; simplify_eq. eauto. Qed.

Lemma index_last_Ok {A} (xs : list A) (x : A) :
  Py.index_last xs = Ok x -> last xs = Some x.
Proof. unfold Py.index_last. destruct (last xs); intros H; by simplify_eq. Qed.

Lemma unpack2_Ok {A} (xs : list A) (a b : A) :
  Py.unpack2 xs = Ok (a, b) -> xs = [a; b].
Proof.
  destruct xs as [|? [|? [|? ?]]]; simpl; intros H; by simplify_eq.
Qed.

(** *** Digits *)

Lemma decimal_nonneg s : all_digits s -> (0 <= decimal s)%Z.
Proof.
  unfold all_digits. induction s as [|c s IH]; simpl; [lia|].
  intros [Hc Hs]%andb_prop. pose proof (digit_value_nonneg c).
  specialize (IH Hs). nia.
Qed.

(** *** White space *)

Lemma lstrip_head s :
  match Py.lstrip s with
  | [] => True
  | c :: _ => Py.isspace_char c = false
  end.
Proof.
  induction s as [|c s IH]; simpl; [done|].
  destruct (Py.isspace_char c) eqn:Hc; [done|]. simpl. done.
Qed.

Lemma lstrip_empty s :
  Py.lstrip s = [] -> Py.str_forall Py.isspace_char s = true.
Proof.
  induction s as [|c s IH]; simpl; [done|].
  destruct (Py.isspace_char c); [auto|done].
Qed.

Lemma rstrip_rstrip s : Py.rstrip (Py.rstrip s) = Py.rstrip s.
Proof.
  induction s as [|c s IH]; simpl; [done|].
  destruct (Py.isspace_char c && Py.is_empty (Py.rstrip s)) eqn:E; [done|].
  simpl. by rewrite IH, E.
Qed.

Lemma rstrip_keeps_head c s :
  Py.isspace_char c = false -> Py.rstrip (c :: s) = c :: Py.rstrip s.
Proof. intros H. simpl. by rewrite H. Qed.

(** [strip] changes nothing in what it returned. *)
Lemma strip_strip s : Py.strip (Py.strip s) = Py.strip s.
Proof.
  unfold Py.strip. pose proof (lstrip_head s) as H.
  destruct (Py.lstrip s) as [|c t]; [done|].
  rewrite (rstrip_keeps_head c t H). simpl. rewrite H. simpl. rewrite H.
  simpl. by rewrite rstrip_rstrip.
Qed.

Lemma strip_nonempty s :
  Py.str_forall Py.isspace_char s = false -> Py.strip s <> [].
Proof.
  intros Hs. unfold Py.strip. pose proof (lstrip_head s) as H.
  destruct (Py.lstrip s) as [|c t] eqn:E.
  - apply lstrip_empty in E. congruence.
  - by rewrite (rstrip_keeps_head c t H).
Qed.

Lemma str_forall_lstrip p s :
  Py.str_forall p s = true -> Py.str_forall p (Py.lstrip s) = true.
Proof.
  induction s as [|c s IH]; simpl; [done|].
  intros [Hc Hs]%andb_prop. destruct (Py.isspace_char c); [auto|].
  simpl. by rewrite Hc, Hs.
Qed.

Lemma str_forall_rstrip p s :
  Py.str_forall p s = true -> Py.str_forall p (Py.rstrip s) = true.
Proof.
  induction s as [|c s IH]; simpl; [done|].
  intros [Hc Hs]%andb_prop.
  destruct (Py.isspace_char c && Py.is_empty (Py.rstrip s)); [done|].
  simpl. rewrite Hc. auto.
Qed.

Lemma str_forall_strip p s :
  Py.str_forall p s = true -> Py.str_forall p (Py.strip s) = true.
Proof. intros H. by apply str_forall_rstrip, str_forall_lstrip. Qed.

(** *** Lines *)

Lemma splitlines_from_cons (cur : pystr) (c : N) (s : pystr) :
  Py.splitlines_from cur (c :: s)
  = if (c =? 13)%N then
      match s with
      | d :: s'' =>
          if (d =? 10)%N then cur :: Py.splitlines_from [] s''
          else cur :: Py.splitlines_from [] s
      | [] => cur :: Py.splitlines_from [] s
      end
    else if Py.islinebreak c then cur :: Py.splitlines_from [] s
    else Py.splitlines_from (Py.snoc cur c) s.
Proof. reflexivity. Qed.

Lemma splitlines_from_single_line_step s :
  (forall cur, single_line cur -> Forall single_line (Py.splitlines_from cur s)) /\
  (forall c cur, single_line cur ->
     Forall single_line (Py.splitlines_from cur (c :: s))).
Proof.
  unfold single_line. induction s as [|d s [IH1 IH2]].
  - assert (forall cur, single_line cur ->
              Forall single_line (Py.splitlines_from cur [])) as H0.
    { intros cur H. simpl. destruct (Py.is_empty cur); by repeat constructor. }
    split; [exact H0|]. intros c cur H. rewrite splitlines_from_cons.
    destruct (c =? 13)%N; [constructor; [done|by apply H0]|].
    destruct (Py.islinebreak c) eqn:E; [constructor; [done|by apply H0]|].
    apply H0. unfold single_line. by rewrite str_forall_snoc, H, E.
  - split; [exact (IH2 d)|]. intros c cur H. rewrite splitlines_from_cons.
    destruct (c =? 13)%N.
    + destruct (d =? 10)%N; constructor; try done; [by apply IH1|by apply IH2].
    + destruct (Py.islinebreak c) eqn:E; [constructor; [done|by apply IH2]|].
      apply IH2. by rewrite str_forall_snoc, H, E.
Qed.

Lemma splitlines_from_single_line s cur :
  single_line cur -> Forall single_line (Py.splitlines_from cur s).
Proof. apply splitlines_from_single_line_step. Qed.

(** The lines [_clean_player] returns hold text, are trimmed and contain
    no line boundary. *)
Lemma clean_player_lines (p_str : pystr) :
  Forall (fun l => trimmed l /\ single_line l) (Player._clean_player p_str).
Proof.
  unfold Player._clean_player. apply Forall_map, Forall_forall.
  intros p [Hin Hkeep]%list_elem_of_In%filter_In.
  assert (single_line p) as Hline.
  { pose proof (splitlines_from_single_line p_str [] eq_refl) as H.
    rewrite Forall_forall in H. apply H. by apply list_elem_of_In. }
  apply andb_prop in Hkeep as [Hne Hsp]. unfold Py.isspace in Hsp.
  rewrite Hne in Hsp. simpl in Hsp. apply negb_true_iff in Hsp.
  split; [split|].
  - by apply strip_nonempty.
  - apply strip_strip.
  - by apply str_forall_strip.
Qed.

(** *** Splitting on a separator *)

Lemma snoc_app (cur : pystr) (c : N) (s : pystr) :
  Py.snoc cur c ++ s = cur ++ c :: s.
Proof. unfold Py.snoc. by rewrite <- app_assoc. Qed.

Lemma split_from_nonempty sep cur s : Py.split_from sep cur s <> [].
Proof.
  revert cur. induction s as [|c s IH]; intros cur; simpl; [done|].
  destruct (c =? sep)%N; [done|apply IH].
Qed.

(** Joining the pieces of a split gives the text back. *)
Lemma join_split_from sep s : forall cur,
  join sep (Py.split_from sep cur s) = cur ++ s.
Proof.
  induction s as [|c s IH]; intros cur; simpl.
  - by rewrite app_nil_r.
  - destruct (c =? sep)%N eqn:Hc.
    + apply N.eqb_eq in Hc as ->.
      pose proof (split_from_nonempty sep [] s) as Hne.
      specialize (IH []). rewrite ?app_nil_l_str in IH.
      destruct (Py.split_from sep [] s) as [|p ps]; [done|].
      by rewrite <- IH.
    + by rewrite IH, snoc_app.
Qed.

(** No piece of a split holds the separator. *)
Lemma split_from_lacks sep s : forall cur,
  lacks_char sep cur -> Forall (lacks_char sep) (Py.split_from sep cur s).
Proof.
  unfold lacks_char. induction s as [|c s IH]; intros cur Hcur; simpl.
  - by repeat constructor.
  - destruct (c =? sep)%N eqn:Hc.
    + constructor; [done|]. by apply IH.
    + apply IH. by rewrite str_forall_snoc, Hcur, Hc.
Qed.

(** The text up to its last piece is empty or ends with the separator. *)
Lemma join_last sep (pieces : list pystr) (seg : pystr) :
  last pieces = Some seg ->
  exists pre,
    join sep pieces = pre ++ seg /\
    (pre = [] \/ exists pre', pre = Py.snoc pre' sep).
Proof.
  induction pieces as [|p [|q rest] IH]; intros H; [done| |].
  - simpl in H. simplify_eq. exists []. split; [done|by left].
  - destruct (IH H) as (pre & Heq & Hpre).
    exists (p ++ sep :: pre). split.
    + change (join sep (p :: q :: rest))
        with (p ++ sep :: join sep (q :: rest)).
      by rewrite Heq, <- app_assoc.
    + right. destruct Hpre as [->|[pre' ->]].
      * by exists p.
      * exists (p ++ sep :: pre'). unfold Py.snoc.
        by rewrite <- app_assoc.
Qed.

(** *** Removing and changing characters *)

Lemma remove_char_lacks c s : lacks_char c (Py.remove_char c s).
Proof.
  unfold lacks_char. induction s as [|d s IH]; simpl; [done|].
  destruct (d =? c)%N eqn:E; [done|]. simpl. by rewrite E.
Qed.

Lemma remove_char_keeps p c s :
  Py.str_forall p s = true -> Py.str_forall p (Py.remove_char c s) = true.
Proof.
  induction s as [|d s IH]; simpl; [done|].
  intros [Hd Hs]%andb_prop. destruct (d =? c)%N; [auto|].
  simpl. rewrite Hd. auto.
Qed.

Lemma upper_app (a b : pystr) : Py.upper (a ++ b) = Py.upper a ++ Py.upper b.
Proof.
  induction a as [|c a IH]; [done|]. simpl. by rewrite IH, app_assoc.
Qed.

(** What [upper_char] returns: the entry of the table, or the character
    itself. *)
Lemma upper_char_cases (c : N) :
  (exists p, In p Py.upper_table /\ Py.upper_char c = snd p) \/
  (Py.upper_char c = [c] /\
   List.find (fun p => (fst p =? c)%N) Py.upper_table = None).
Proof.
  unfold Py.upper_char.
  destruct (List.find _ Py.upper_table) as [p|] eqn:E; [left|by right].
  apply find_some in E as [Hin _]. by exists p.
Qed.

(** The upper-case forms of the table are all in upper case. *)
Lemma upper_table_fixed :
  Forall (fun p => Py.upper (snd p) = snd p) Py.upper_table.
Proof. apply (bool_decide_unpack _). vm_compute. exact I. Qed.

Lemma upper_table_lacks_slash :
  Forall (fun p => lacks_char (ch "/") (snd p)) Py.upper_table.
Proof. unfold lacks_char. apply (bool_decide_unpack _). vm_compute. exact I. Qed.

Lemma upper_upper_char c : Py.upper (Py.upper_char c) = Py.upper_char c.
Proof.
  destruct (upper_char_cases c) as [(p & Hin & ->)|[Hc Hnone]].
  - pose proof upper_table_fixed as H. rewrite Forall_forall in H.
    apply H. by apply list_elem_of_In.
  - rewrite Hc. simpl. rewrite app_nil_r. unfold Py.upper_char.
    by rewrite Hnone.
Qed.

Lemma upper_upper s : Py.upper (Py.upper s) = Py.upper s.
Proof.
  induction s as [|c s IH]; simpl; [done|].
  by rewrite upper_app, upper_upper_char, IH.
Qed.

Lemma upper_char_lacks_slash c :
  (c =? ch "/")%N = false -> lacks_char (ch "/") (Py.upper_char c).
Proof.
  intros Hc. destruct (upper_char_cases c) as [(p & Hin & ->)|[-> _]].
  - pose proof upper_table_lacks_slash as H. rewrite Forall_forall in H.
    apply H. by apply list_elem_of_In.
  - unfold lacks_char. cbn [Py.str_forall]. by rewrite Hc.
Qed.

Lemma upper_lacks_slash s :
  lacks_char (ch "/") s -> lacks_char (ch "/") (Py.upper s).
Proof.
  unfold lacks_char. induction s as [|c s IH]; simpl; [done|].
  intros [Hc Hs]%andb_prop. apply negb_true_iff in Hc.
  rewrite str_forall_app, (upper_char_lacks_slash c Hc). auto.
Qed.

(** *** Blank text *)

Lemma blank_cons c s : blank (c :: s) = Py.isspace_char c && blank s.
Proof. reflexivity. Qed.

Lemma blank_snoc cur c : blank (Py.snoc cur c) = blank cur && Py.isspace_char c.
Proof. apply str_forall_snoc. Qed.

Lemma blank_drop p :
  negb (Py.is_empty p) && negb (Py.isspace p) = negb (blank p).
Proof. unfold Py.isspace, blank. by destruct p. Qed.

Lemma splitlines_from_blank_nil cur :
  forallb blank (Py.splitlines_from cur []) = blank cur && true.
Proof.
  rewrite andb_true_r. destruct cur as [|c cur]; [done|].
  cbn [Py.splitlines_from Py.is_empty forallb]. apply andb_true_r.
Qed.

Lemma splitlines_from_blank_step s :
  (forall cur, forallb blank (Py.splitlines_from cur s) = blank cur && blank s) /\
  (forall c cur, forallb blank (Py.splitlines_from cur (c :: s))
                 = blank cur && blank (c :: s)).
Proof.
  induction s as [|d s [IH1 IH2]].
  - split; [exact splitlines_from_blank_nil|]. intros c cur.
    rewrite splitlines_from_cons, blank_cons.
    destruct (c =? 13)%N eqn:Hcr.
    { cbn [forallb]. rewrite splitlines_from_blank_nil.
      by rewrite (carriage_return_is_space c Hcr). }
    destruct (Py.islinebreak c) eqn:Hlb.
    { cbn [forallb]. rewrite splitlines_from_blank_nil.
      by rewrite (linebreak_is_space c Hlb). }
    rewrite splitlines_from_blank_nil, blank_snoc.
    by rewrite !andb_true_r.
  - split; [exact (IH2 d)|]. intros c cur.
    rewrite splitlines_from_cons, (blank_cons c).
    destruct (c =? 13)%N eqn:Hcr.
    + rewrite (carriage_return_is_space c Hcr), andb_true_l.
      destruct (d =? 10)%N eqn:Hd.
      * apply N.eqb_eq in Hd as ->. cbn [forallb]. by rewrite IH1.
      * cbn [forallb]. by rewrite IH2.
    + destruct (Py.islinebreak c) eqn:Hlb.
      * cbn [forallb]. by rewrite IH2, (linebreak_is_space c Hlb).
      * by rewrite IH2, blank_snoc, andb_assoc.
Qed.

Lemma filter_nil_forallb {A} (p : A -> bool) (l : list A) :
  List.filter (fun x => negb (p x)) l = [] <-> forallb p l = true.
Proof.
  induction l as [|x l IH]; simpl; [done|].
  destruct (p x); simpl; [done|]. split; intros H; discriminate H.
Qed.

(** [_clean_player] returns no line exactly for a blank text. *)
Lemma clean_player_nil (p_str : pystr) :
  Player._clean_player p_str = [] <-> blank p_str = true.
Proof.
  unfold Player._clean_player, Py.splitlines.
  rewrite (List.filter_ext _ (fun x => negb (blank x)) blank_drop).
  pose proof (proj1 (splitlines_from_blank_step p_str) []) as Hall.
  change (blank [] && blank p_str) with (blank p_str) in Hall.
  rewrite <- Hall, <- filter_nil_forallb. split.
  - apply List.map_eq_nil.
  - by intros ->.
Qed.

(** *** Lengths under stripping *)

Lemma lstrip_length s : length (Py.lstrip s) <= length s.
Proof.
  induction s as [|c s IH]; simpl; [done|].
  destruct (Py.isspace_char c); simpl; lia.
Qed.

Lemma rstrip_length s : length (Py.rstrip s) <= length s.
Proof.
  induction s as [|c s IH]; simpl; [done|].
  destruct (Py.isspace_char c && Py.is_empty (Py.rstrip s)); simpl; lia.
Qed.

Lemma lstrip_fixed s :
  length (Py.lstrip s) = length s -> Py.lstrip s = s.
Proof.
  destruct s as [|c s]; simpl; [done|].
  destruct (Py.isspace_char c); [|done].
  pose proof (lstrip_length s). lia.
Qed.

Lemma rstrip_snoc_space a c :
  Py.isspace_char c = true -> Py.rstrip (Py.snoc a c) = Py.rstrip a.
Proof.
  intros Hc. unfold Py.snoc. induction a as [|d a IH].
  - simpl. by rewrite Hc.
  - rewrite ?app_cons_str. simpl. by rewrite IH.
Qed.

Lemma snoc_length a c : length (Py.snoc a c) = S (length a).
Proof.
  unfold Py.snoc. induction a as [|d a IH]; [done|].
  rewrite ?app_cons_str. simpl. by rewrite IH.
Qed.

(** A trimmed text does not start and does not end with white space. *)
Lemma trimmed_ends s :
  Py.strip s = s ->
  (forall c t, s = c :: t -> Py.isspace_char c = false) /\
  (forall a c, s = Py.snoc a c -> Py.isspace_char c = false).
Proof.
  intros H. unfold Py.strip in H.
  assert (Py.lstrip s = s) as Hl.
  { apply lstrip_fixed. pose proof (lstrip_length s).
    pose proof (rstrip_length (Py.lstrip s)). rewrite H in *. lia. }
  rewrite Hl in H. split.
  - intros c t ->. pose proof (lstrip_head (c :: t)) as Hh.
    by rewrite Hl in Hh.
  - intros a c ->. destruct (Py.isspace_char c) eqn:Hc; [|done].
    rewrite (rstrip_snoc_space a c Hc) in H.
    pose proof (rstrip_length a). pose proof (snoc_length a c).
    rewrite H in *. lia.
Qed.

(** *** Identity parsing, inverted *)

Lemma player_parse_inv (container : node) (name : pystr) (z : Z) :
  Player.parse container = Ok (name, z) ->
  exists a,
    select_one (Name "a") container = Some a /\
    name = Py.strip (get_text (name_source a)) /\
    Py.int (attr "data-mlb" a) = Ok z.
Proof.
  unfold Player.parse, Player._parse_name, Player._parse_mlb_id, name_source.
  intros H. destruct (select_one (Name "a") container) as [a|]; [|done].
  exists a. split; [done|]. simpl in H.
  destruct (select_one (Class "desktop-name") a); simpl in H;
    destruct (Py.int (attr "data-mlb" a)); simpl in H; by simplify_eq.
Qed.

(** What identity parsing raises. *)
Lemma player_parse_raises (container : node) (e : exn) :
  Player.parse container = Raise e ->
  e = AttributeError \/ e = TypeError \/ exists msg, e = ValueError msg.
Proof.
  unfold Player.parse, Player._parse_name, Player._parse_mlb_id.
  intros H. destruct (select_one (Name "a") container) as [a|]; simpl in H;
    [|simplify_eq; by left].
  assert (Py.int (attr "data-mlb" a) = Raise e) as Hint.
  { destruct (select_one (Class "desktop-name") a); simpl in H;
      destruct (Py.int (attr "data-mlb" a)); simpl in H; by simplify_eq. }
  destruct (attr "data-mlb" a) as [v|]; simpl in Hint;
    [|simplify_eq; right; by left].
  right. right.
  destruct (int_of_str_cases v) as [[z Hz]|Hz]; rewrite Hz in Hint;
    simplify_eq; eauto.
Qed.

Lemma extract_int_total (text : pystr) : exists o, extract_int text = Ok o.
Proof.
  destruct (no_digit_or_first_run text) as [H|[run H]].
  - rewrite (extract_int_no_digit _ H). eauto.
  - rewrite (extract_int_first_run _ _ H). eauto.
Qed.

Lemma blank_app a b : blank (a ++ b) = blank a && blank b.
Proof. apply str_forall_app. Qed.

(** A blank text does not contain the to-be-determined marker. *)
Lemma blank_not_tbd (text : pystr) :
  blank text = true -> Py.contains (lit "TBD") text = false.
Proof.
  intros Hb. destruct (Py.contains (lit "TBD") text) eqn:Hc; [|done].
  apply contains_split in Hc as (pre & post & ->).
  rewrite !blank_app in Hb. apply andb_prop in Hb as [_ Hb].
  apply andb_prop in Hb as [Hb _]. vm_compute in Hb. discriminate Hb.
Qed.

Lemma safe_unpack2_classes {A} (xs : list A) (e : exn) :
  Py.unpack2 xs = Raise e -> exists msg, e = ValueError msg.
Proof.
  destruct xs as [|? [|? [|? ?]]]; simpl; intros H; simplify_eq; eauto.
Qed.

(** *** The rotation loop, forwards *)

Lemma rotation_loop_mapM (ps : list node) : forall batter rotation,
  Team.rotation_loop ps batter rotation
  = match mapM Batter.__init__ ps with
    | Ok bs =>
        Ok (match last bs with Some b => Some b | None => batter end,
            rotation ++ bs)
    | Raise e => Raise e
    end.
Proof.
  induction ps as [|p ps IH]; intros batter rotation; simpl.
  - by rewrite app_nil_r.
  - destruct (Batter.__init__ p) as [b|e]; simpl; [|done].
    rewrite IH. destruct (mapM Batter.__init__ ps) as [bs|e]; simpl; [|done].
    rewrite <- app_assoc. simpl. destruct bs as [|b' bs]; [done|].
    change (last (b :: b' :: bs)) with (last (b' :: bs)).
    destruct (last (b' :: bs)) eqn:E; [done|]. by apply last_None in E.
Qed.

(** *** Games of a document *)

Lemma scrape_games_spec (cards : list node) : forall next games next',
  DateGames._scrape_games next cards = Ok (games, next') ->
  Forall2 (fun card g => exists n, Game.__init__ n card = Ok (g, S (S n)))
          cards games /\
  next' = next + 2 * length cards.
Proof.
  induction cards as [|card cards IH]; intros next games next' H; simpl in H.
  - simplify_eq. split; [constructor|simpl; lia].
  - inv_bind H as [game n1] Hgame. inv_bind H as [rest n2] Hrest.
    simplify_eq. destruct (IH _ _ _ Hrest) as [Hall ->].
    pose proof (game_init_oids _ _ _ _ Hgame) as (_ & _ & ->).
    split; [|simpl; lia]. constructor; [|done]. eauto.
Qed.

Lemma find_in_cards (containers : list node) :
  Forall (fun card => has_class "lineup-col" card = true /\
                      is_Some (attr "data-league" card))
         (DateGames.find_in containers).
Proof.
  induction containers as [|c cs IH]; simpl; [constructor|].
  destruct (select_one (Class "lineups") c) as [section|]; [|done].
  apply Forall_forall. intros card Hin.
  apply list_elem_of_In, filter_In in Hin as [Hin Hleague].
  apply filter_In in Hin as [_ Hclass]. split; [done|].
  by destruct (attr "data-league" card).
Qed.

Lemma find_in_first (pre : list node) (c : node) (rest : list node)
    (section : node) :
  Forall (fun x => select_one (Class "lineups") x = None) pre ->
  select_one (Class "lineups") c = Some section ->
  DateGames.find_in (pre ++ c :: rest)
  = DateGames._validate_games (select (Class "lineup-col") section).
Proof.
  intros Hpre Hc. induction Hpre as [|x pre Hx _ IH]; simpl.
  - by rewrite Hc.
  - by rewrite Hx.
Qed.

Lemma find_in_none (containers : list node) :
  Forall (fun x => select_one (Class "lineups") x = None) containers ->
  DateGames.find_in containers = [].
Proof. induction 1 as [|x l Hx _ IH]; simpl; [done|]. by rewrite Hx. Qed.

(** *** Fields of a record *)

Lemma pitcher_row_full (p : Pitcher.t) (g : Game.t) (team opp : Team.t)
    (is_home : bool) (date : pystr) :
  full_record date
    (<["Date" := PStr date]> (Pitcher.record p ∪ game_context g team opp is_home)).
Proof.
  split; [reflexivity|]. split.
  - unfold common_keys. repeat constructor; vm_compute; eauto.
  - left. rewrite dom_insert_L, dom_union_L.
    unfold Pitcher.record, unpack_both, Player.record, game_context, dict,
      list_to_map, common_keys.
    cbn [fold_right fst snd list_to_set foldr].
    rewrite dom_union_L, !dom_insert_L, !dom_empty_L. set_solver.
Qed.

Lemma batter_row_full (b : Batter.t) (g : Game.t) (team opp : Team.t)
    (is_home : bool) (date : pystr) :
  full_record date
    (<["Date" := PStr date]> (Batter.record b ∪ game_context g team opp is_home)).
Proof.
  split; [reflexivity|]. split.
  - unfold common_keys. repeat constructor; vm_compute; eauto.
  - right. rewrite dom_insert_L, dom_union_L.
    unfold Batter.record, unpack_both, Player.record, game_context, dict,
      list_to_map, common_keys.
    cbn [fold_right fst snd list_to_set foldr].
    rewrite dom_union_L, !dom_insert_L, !dom_empty_L. set_solver.
Qed.

Lemma team_rows_full (g : Game.t) (team opp : Team.t) (date : pystr) :
  Forall (full_record date)
    (map (fun r => <["Date" := PStr date]> r) (Game.add_team_records g team opp)).
Proof.
  rewrite add_team_records_eq, map_map. unfold player_records.
  apply Forall_map. constructor; [apply pitcher_row_full|].
  apply Forall_map, Forall_forall. intros b _. apply batter_row_full.
Qed.

Lemma game_rows_full (g : Game.t) (date : pystr) :
  Forall (full_record date)
    (map (fun r => <["Date" := PStr date]> r) (Game.records g)).
Proof.
  unfold Game.records. cbv zeta. rewrite app_nil_l, map_app.
  apply Forall_app. split; apply team_rows_full.
Qed.

Lemma all_rows_full (games : list Game.t) (date : pystr) :
  Forall (full_record date)
    (map (fun r => <["Date" := PStr date]> r) (flat_map Game.records games)).
Proof.
  induction games as [|g gs IH]; [constructor|].
  change (flat_map Game.records (g :: gs))
    with (Game.records g ++ flat_map Game.records gs).
  rewrite map_app. apply Forall_app. split; [apply game_rows_full|exact IH].
Qed.

(** *** The bundle of a card *)

Lemma extract_object_html_iff (soup : node) (oh : Game.object_html) :
  Game._extract_object_html soup = Ok oh
  <-> exists cr, card_layout soup cr /\ oh = bundle cr.
Proof.
  unfold Game._extract_object_html, Game._parse_header, Game._parse_body,
    Game._parse_footer. split.
  - intros H.
    inv_bind H as [[gametime [hids hp]] [aids ap]] Hheader.
    inv_bind H as [hrot arot] Hbody.
    inv_bind H as [far prec] Hfooter. simplify_eq.
    inv_bind Hheader as header Hh. apply deref_Ok in Hh.
    inv_bind Hheader as row0 Hrow0. apply index0_Ok in Hrow0 as [rows0 Hrows].
    inv_bind Hheader as c1 Hc1. apply index1_Ok in Hc1 as (c0 & cols & Hcols).
    inv_bind Hheader as c0' Hc0. rewrite Hcols in Hc0. simpl in Hc0.
    inv_bind Hheader as clast Hclast. apply index_last_Ok in Hclast.
    inv_bind Hheader as row1 Hrow1. rewrite Hrows in Hrow1.
    apply index1_Ok in Hrow1 as (row0' & rows & Hrows').
    inv_bind Hheader as [p0 p1] Hp. apply unpack2_Ok in Hp. simplify_eq.
    inv_bind Hbody as body Hb. apply deref_Ok in Hb.
    inv_bind Hbody as [r0 r1] Hr. apply unpack2_Ok in Hr. simplify_eq.
    inv_bind Hfooter as footer Hf. apply deref_Ok in Hf.
    inv_bind Hfooter as col Hcol. apply deref_Ok in Hcol.
    inv_bind Hfooter as d0 Hd0. apply index0_Ok in Hd0 as [ds Hdivs].
    inv_bind Hfooter as d1 Hd1. rewrite Hdivs in Hd1.
    apply index1_Ok in Hd1 as (d0' & divs & Hdivs').
    injection Hdivs' as -> ->. injection Hfooter as -> ->.
    exists (mk_card_regions hids gametime aids hp ap hrot arot far prec).
    split; [|done].
    exists header, body, footer, row0', row1, rows, cols, col, divs.
    cbn [home_ids time_col away_ids home_pitcher away_pitcher home_rotation
         away_rotation farenheit_div precipitation_div].
    rewrite Hcols in Hclast. repeat split; try done; congruence.
  - intros (cr & Hlayout & ->).
    destruct Hlayout as (header & body & footer & row0 & row1 & rows & cols
                         & col & divs & Hh & Hrows & Hcols & Hlast & Hp & Hb
                         & Hr & Hf & Hcol & Hdivs).
    rewrite Hh, Hb, Hf. unfold Py.index_last.
    cbn [deref mbind result_bind]. rewrite Hrows, Hr, Hcol.
    cbn [deref Py.index0 Py.index1 Py.unpack2 mbind result_bind].
    rewrite Hcols, Hp, Hdivs, Hlast.
    cbn [Py.index0 Py.index1 Py.unpack2 mbind result_bind].
    by destruct cr.
Qed.

Lemma team_init_inv (fresh : nat) (td : TeamDict.t) (team : Team.t) :
  Team.__init__ fresh td = Ok team ->
  Team._parse_name (TeamDict.ids td) = Ok (Team.name team) /\
  Team._parse_abbreviation (TeamDict.ids td) = Ok (Team.abbreviation team) /\
  Pitcher.__init__ (TeamDict.pitcher td) = Ok (Team.pitcher team) /\
  Team._parse_rotation (TeamDict.rotation td) = Ok (Team.rotation team).
Proof.
  unfold Team.__init__, Team.parse, Team._parse_pitcher. intros H.
  inv_bind H as [[[name abbreviation] pitcher] rotation] Hparse.
  inv_bind Hparse as name' Hname. inv_bind Hparse as abbr' Habbr.
  inv_bind Hparse as pitcher' Hpitcher. inv_bind Hparse as rot' Hrot.
  by simplify_eq.
Qed.

Lemma game_init_inv (next : nat) (soup : node) (g : Game.t) (next' : nat) :
  Game.__init__ next soup = Ok (g, next') ->
  exists oh,
    Game._extract_object_html soup = Ok oh /\
    Team.__init__ next (Game.oh_home oh) = Ok (Game.home g) /\
    Team.__init__ (S next) (Game.oh_away oh) = Ok (Game.away g) /\
    Game._parse_time (Game.gd_time (Game.oh_game oh)) = Ok (Game.time g) /\
    extract_int (get_text (Game.gd_farenheit (Game.oh_game oh)))
    = Ok (Game.farenheit g) /\
    extract_int (get_text (Game.gd_precipitation (Game.oh_game oh)))
    = Ok (Game.precipitation g).
Proof.
  unfold Game.__init__. intros H.
  inv_bind H as [[[[[home away] time] farenheit] precipitation] n] Hparse.
  simplify_eq. cbn [Game.home Game.away Game.time Game.farenheit Game.precipitation].
  unfold Game.parse in Hparse.
  inv_bind Hparse as oh Hoh. inv_bind Hparse as [built n'] Hteams.
  inv_bind Hparse as [home' away'] Hunpack.
  inv_bind Hparse as [[time' farenheit'] precipitation'] Hgame. simplify_eq.
  cbn [Game._parse_teams] in Hteams.
  inv_bind Hteams as t1 Ht1. inv_bind Hteams as [ts n1] Hrest.
  inv_bind Hrest as t2 Ht2. cbn [mbind result_bind] in Hrest. simplify_eq.
  cbn [Py.unpack2] in Hunpack. simplify_eq. unfold Game._parse_game, Game._parse_farenheit,
    Game._parse_precipitation in Hgame.
  inv_bind Hgame as time' Htime. inv_bind Hgame as far' Hfar.
  inv_bind Hgame as prec' Hprec. simplify_eq.
  exists oh. by repeat split.
Qed.

(** *** A card that cannot be built *)


(** *** The tree *)

Lemma descendants_tag name classes attrs contents :
  descendants (Tag name classes attrs contents)
  = flat_map (fun c => c :: descendants c) contents.
Proof.
  cbn [descendants]. induction contents as [|c cs IH]; [done|].
  cbn [flat_map app]. by rewrite IH.
Qed.

Lemma select_children_tag p c name classes attrs contents :
  select_children p c (Tag name classes attrs contents)
  = flat_map (fun k => (if Soup.mem p classes && has_class c k then [k] else [])
                       ++ select_children p c k) contents.
Proof.
  cbn [select_children]. induction contents as [|k ks IH]; [done|].
  cbn [flat_map]. by rewrite IH, app_assoc.
Qed.

(** What lies below a descendant lies below the element. *)
Lemma descendants_trans (n x y : node) :
  In x (descendants n) -> In y (descendants x) -> In y (descendants n).
Proof.
  induction n as [s|name classes attrs contents IH] using node_ind;
    [done|].
  rewrite descendants_tag, !in_flat_map. intros (c & Hc & Hx) Hy.
  exists c. split; [done|]. right. destruct Hx as [->|Hx]; [done|].
  rewrite Forall_forall in IH. apply IH; [by apply list_elem_of_In|done..].
Qed.

Lemma select_children_descendants (p c : string) (n x : node) :
  In x (select_children p c n) -> In x (descendants n).
Proof.
  induction n as [s|name classes attrs contents IH] using node_ind;
    [done|].
  rewrite select_children_tag, descendants_tag, !in_flat_map.
  intros (k & Hk & Hx). exists k. split; [done|].
  apply in_app_or in Hx as [Hx|Hx].
  - destruct (Soup.mem p classes && has_class c k); [|done].
    destruct Hx as [->|[]]. by left.
  - right. rewrite Forall_forall in IH.
    apply IH; [by apply list_elem_of_In|done].
Qed.

Lemma select_descendants (sel : selector) (n x : node) :
  In x (select sel n) -> In x (descendants n).
Proof.
  destruct sel as [c|t|p c]; simpl.
  - by intros [? _]%filter_In.
  - by intros [? _]%filter_In.
  - apply select_children_descendants.
Qed.

Lemma select_one_descendants (sel : selector) (n x : node) :
  select_one sel n = Some x -> In x (descendants n).
Proof.
  unfold select_one. intros H. apply (select_descendants sel).
  destruct (select sel n); simpl in H; simplify_eq. by left.
Qed.

(** *** The cards the extraction reads *)

(** The valid cards of a section are its cards with the league marker. *)
Lemma validate_games_league_cards (section : node) :
  DateGames._validate_games (select (Class "lineup-col") section)
  = league_cards section.
Proof.
  unfold DateGames._validate_games, league_cards. cbn [select].
  induction (descendants section) as [|x l IH]; [done|]. cbn [List.filter].
  destruct (has_class "lineup-col" x); cbn [List.filter andb];
    rewrite IH; [|done].
  by destruct (attr "data-league" x).
Qed.

Lemma league_cards_below (n x y : node) :
  In x (descendants n) -> In y (league_cards x) -> In y (league_cards n).
Proof.
  unfold league_cards. intros Hx [Hy Hp]%filter_In. apply filter_In.
  split; [|done]. by apply (descendants_trans n x y).
Qed.

(** The cards [_find_games] returns are cards of the document. *)
Lemma find_in_league_cards (soup : node) (containers : list node) (card : node) :
  Forall (fun c => In c (descendants soup)) containers ->
  In card (DateGames.find_in containers) -> In card (league_cards soup).
Proof.
  induction 1 as [|c cs Hc _ IH]; cbn [DateGames.find_in]; [by intros []|].
  destruct (select_one (Class "lineups") c) as [section|] eqn:Hs; [|done].
  rewrite validate_games_league_cards.
  apply league_cards_below, (descendants_trans soup c section); [done|].
  by apply (select_one_descendants (Class "lineups")).
Qed.

Lemma find_games_league_cards (soup : node) (card : node) :
  In card (DateGames._find_games soup) -> In card (league_cards soup).
Proof.
  apply find_in_league_cards, Forall_forall. intros c Hc%list_elem_of_In.
  by apply (select_descendants (ChildOf "ccm-page" "container")).
Qed.

Lemma no_league_cards_no_games (soup : node) :
  league_cards soup = [] -> DateGames._find_games soup = [].
Proof.
  intros H. destruct (DateGames._find_games soup) as [|card l] eqn:E; [done|].
  assert (In card (league_cards soup)) as Hin
    by (apply find_games_league_cards; rewrite E; by left).
  by rewrite H in Hin.
Qed.

(** The extraction fails with the no-games exception when [_find_games]
    returns no card, and never does when it returns one. *)
Lemma no_cards_found_reports (scraped : node) :
  DateGames._find_games scraped = [] -> reports_no_games scraped.
Proof.
  intros H. split.
  - intros next self <-. unfold DateGames.parse. by rewrite H.
  - intros today next date_str. unfold DateGames.__init__, DateGames.parse.
    cbn [DateGames.raw]. by rewrite H.
Qed.

Lemma cards_found_never_reports (scraped : node) :
  DateGames._find_games scraped <> [] -> never_reports_no_games scraped.
Proof.
  intros H. split.
  - intros next self <- Hr. by apply (parse_with_cards next self H _ Hr).
  - intros today next date_str Hr. unfold DateGames.__init__ in Hr.
    set (fresh := DateGames.mk _ [] [] scraped) in Hr.
    destruct (DateGames.parse next fresh) as [[[games self'] n]|e'] eqn:Hp;
      simpl in Hr; [discriminate Hr|]. simplify_eq.
    by apply (parse_with_cards next fresh H _ Hp).
Qed.

(** *** Counting rows against the markup *)


Lemma card_layout_bundle (soup : node) (cr : card_regions) :
  card_layout soup cr -> Game._extract_object_html soup = Ok (bundle cr).
Proof. intros H. apply extract_object_html_iff. by exists cr. Qed.



(** *** A date that was built *)


Lemma records_nonempty (today : pystr) (scraped : node) (next : nat)
    (date_str : pystr) (dg : DateGames.t) (next' : nat) :
  DateGames.__init__ today scraped next date_str true = Ok (dg, next') ->
  exists r rs, (DateGames.records dg).1 = r :: rs.
Proof.
  intros (Hgames & Hcache & _)%init_parsed.
  unfold DateGames.records. rewrite Hcache. cbn [fst].
  destruct (map _ _) as [|r rs] eqn:Hrows; [|eauto].
  apply List.map_eq_nil in Hrows.
  destruct (DateGames.games dg) as [|g gs]; [done|].
  change (flat_map Game.records (g :: gs))
    with (Game.records g ++ flat_map Game.records gs) in Hrows.
  apply app_eq_nil in Hrows as [Hg _]. apply (f_equal length) in Hg.
  rewrite game_records_length in Hg. unfold rows_of_game in Hg.
  simpl in Hg. lia.
Qed.

(** [parse] succeeds when the cards it finds can all be built. *)
Lemma parse_succeeds (n : nat) (self : DateGames.t) (games : list Game.t)
    (n' : nat) :
  DateGames._find_games (DateGames.raw self) <> [] ->
  DateGames._scrape_games n (DateGames._find_games (DateGames.raw self))
  = Ok (games, n') ->
  exists self', DateGames.parse n self = Ok (games, self', n').
Proof.
  intros Hfind H. unfold DateGames.parse.
  destruct (DateGames._find_games (DateGames.raw self)) as [|gc gcs]; [done|].
  rewrite H. cbn [mbind result_bind]. eauto.
Qed.

(** ** The claims of the specification *)



(** C4. A pitcher region whose text contains the to-be-determined marker
    yields a pitcher whose name, league ID, handedness and position are
    absent, and whose record has the keys ID, Name, Handedness and
    Position, each mapped to the absent value. *)
Theorem tbd_pitcher_is_placeholder (soup : node) :
  occurs_in (lit "TBD") (get_text soup) ->
  exists p,
    Pitcher.__init__ soup = Ok p /\
    Player.name (Pitcher.base p) = None /\
    Player.mlb_id (Pitcher.base p) = None /\
    Player.handedness (Pitcher.base p) = None /\
    Pitcher.position p = None /\
    Pitcher.record p !! "ID" = Some PNone /\
    Pitcher.record p !! "Name" = Some PNone /\
    Pitcher.record p !! "Handedness" = Some PNone /\
    Pitcher.record p !! "Position" = Some PNone.
Proof.
  intros H%contains_iff. eexists. split.
  - unfold Pitcher.__init__, Pitcher._is_valid_pitcher. rewrite H. reflexivity.
  - repeat split; reflexivity.
Qed.

Lemma tbd_pitcher_is_placeholder_witness :
  exists p,
    Pitcher.__init__ Sample.tbd_pitcher = Ok p /\
    Pitcher.record p !! "ID" = Some PNone.
Proof.
  destruct (tbd_pitcher_is_placeholder Sample.tbd_pitcher) as (p & Hp & H);
    [exists Sample.nl, Sample.nl; reflexivity|].
  exists p. split; [exact Hp|]. apply H.
Defined.

(** C5. A rotation region whose text contains the unreleased-lineup marker
    in any letter case parses to the empty rotation, and a team built
    with that region has an empty rotation and contributes the pitcher's
    record only. *)
Theorem unreleased_rotation_is_empty (container : node) :
  contains_any_case (lit "no lineup released") (get_text container) ->
  Team._parse_rotation container = Ok [] /\
  forall fresh team_dict team,
    TeamDict.rotation team_dict = container ->
    Team.__init__ fresh team_dict = Ok team ->
    Team.rotation team = [] /\
    Team.records team
    = [Team._add_record team (Pitcher.record (Team.pitcher team))].
Proof.
  intros H. apply contains_lower_iff in H.
  assert (Team._parse_rotation container = Ok []) as Hrot.
  { unfold Team._parse_rotation, Team._is_valid_rotation. by rewrite H. }
  split; [done|]. intros fresh td team <- Ht.
  unfold Team.__init__ in Ht.
  inv_bind Ht as [[[name abbreviation] pitcher] rotation] Hparse. simplify_eq.
  unfold Team.parse in Hparse.
  inv_bind Hparse as name' Hname. inv_bind Hparse as abbreviation' Habbr.
  inv_bind Hparse as pitcher' Hpitcher. inv_bind Hparse as rotation' Hrotation.
  rewrite Hrot in Hrotation. by simplify_eq.
Qed.

Lemma unreleased_rotation_is_empty_witness :
  Team._parse_rotation Sample.unreleased_rotation = Ok [].
Proof.
  apply (unreleased_rotation_is_empty Sample.unreleased_rotation).
  exists Sample.nl, (lit "No Lineup Released"), Sample.nl. split; reflexivity.
Defined.

(** C10. A rotation region whose text lacks the unreleased-lineup marker
    and which contains no player sub-region does not parse to an empty
    rotation: parsing fails with the unbound-local name error; hence
    parsing such a marker-free region succeeds only if it contains at
    least one player sub-region. *)
Theorem rotation_without_players_fails (container : node) :
  ~ contains_any_case (lit "no lineup released") (get_text container) ->
  (select (Class "player") container = [] ->
   Team._parse_rotation container = Raise UnboundLocalError) /\
  (forall r, Team._parse_rotation container = Ok r ->
     select (Class "player") container <> []).
Proof.
  intros Hv%valid_rotation_iff. split.
  - by apply rotation_without_players.
  - intros r Hr Hnil. by rewrite rotation_without_players in Hr.
Qed.

Lemma rotation_without_players_fails_witness :
  Team._parse_rotation Sample.empty_rotation = Raise UnboundLocalError.
Proof.
  apply (rotation_without_players_fails Sample.empty_rotation).
  - apply valid_rotation_iff. vm_compute; reflexivity.
  - vm_compute; reflexivity.
Defined.

(** C1. The code on a released lineup with a single player region: the
    region carries no marker and has one player sub-region, yet the parsed
    rotation holds that batter twice. *)
Theorem single_batter_rotation_is_doubled :
  Team._is_valid_rotation Sample.one_batter_rotation = true /\
  select (Class "player") Sample.one_batter_rotation = [Sample.lemahieu] /\
  exists b,
    Batter.__init__ Sample.lemahieu = Ok b /\
    Team._parse_rotation Sample.one_batter_rotation = Ok [b; b].
Proof.
  split; [vm_compute; reflexivity|]. split; [vm_compute; reflexivity|].
  eexists. split; vm_compute; reflexivity.
Qed.



(** C6. Calling [records()] twice on a [DateGames] without mutating it in
    between returns the same output the second time; after the first
    call the result is what the object keeps in its cache, and the second
    call leaves the object as it was. *)
Theorem records_twice_identical (self : DateGames.t) :
  let first := DateGames.records self in
  let second := DateGames.records first.2 in
  second.1 = first.1 /\
  DateGames._records first.2 = first.1 /\
  second.2 = first.2.
Proof.
  unfold DateGames.records.
  destruct (DateGames._records self) as [|r rs] eqn:Hcache.
  - set (new := map _ (flat_map Game.records (DateGames.games self))).
    cbn [fst snd DateGames._records DateGames.games DateGames.date DateGames.raw].
    fold new. by destruct new.
  - cbn [fst snd]. by rewrite Hcache.
Qed.

(** C2. The code on a document with one valid card whose home lineup is
    released with two batters and whose away lineup is not released: the
    card lists two batters and two pitchers, four records by the count of
    the specification, yet [records()] returns five, because the parsed
    home rotation holds its last batter twice. *)
Theorem records_count_exceeds_batters :
  let card := Sample.card [Sample.tbd_pitcher; Sample.cole] in
  let cr := Sample.regions Sample.tbd_pitcher Sample.cole in
  DateGames._find_games Sample.good_page = [card] /\
  card_layout card cr /\
  ~ contains_any_case (lit "no lineup released") (get_text (home_rotation cr)) /\
  select (Class "player") (home_rotation cr) = [Sample.lemahieu; Sample.judge] /\
  contains_any_case (lit "no lineup released") (get_text (away_rotation cr)) /\
  card_records cr = 4 /\
  exists dg next',
    DateGames.__init__ (lit "2021-03-17") Sample.good_page 0 [] true
    = Ok (dg, next') /\
    length (DateGames.records dg).1 = 5.
Proof.
  cbv zeta. split; [vm_compute; reflexivity|]. split.
  { exists (Sample.header [Sample.tbd_pitcher; Sample.cole]), Sample.body,
      Sample.footer,
      (Sample.div ["row"] [Sample.ids "/teams/nyy" "Yankees"; Sample.time_column;
                           Sample.ids "/teams/bos" "Red Sox"]),
      (Sample.div ["row"] [Sample.tbd_pitcher; Sample.cole]), [],
      [Sample.ids "/teams/bos" "Red Sox"],
      (Sample.div ["col-8"] [Sample.temperature; Sample.precipitation]), [].
    repeat split; vm_compute; reflexivity. }
  split; [apply valid_rotation_iff; vm_compute; reflexivity|].
  split; [vm_compute; reflexivity|]. split.
  { exists Sample.nl, (lit "No Lineup Released"), Sample.nl.
    split; reflexivity. }
  split; [vm_compute; reflexivity|].
  destruct (DateGames.__init__ (lit "2021-03-17") Sample.good_page 0 [] true)
    as [[dg n]|e] eqn:H; [|vm_compute in H; discriminate H].
  exists dg, n. split; [reflexivity|].
  apply init_parsed in H as H'. destruct H' as (_ & Hcache & _).
  unfold DateGames.records. rewrite Hcache. cbn [fst].
  rewrite length_map, flat_map_length_sum.
  vm_compute in H. injection H as <- _. vm_compute. reflexivity.
Qed.

(** C9. For every game that was built, [Game.records()] lists the home
    side's records and then the away side's; within a side the pitcher's
    record comes first and the rotation follows in order; every record is
    the player's own fields together with the context of its side: the
    team's name and abbreviation, the time, temperature and precipitation
    of the game, the is-home flag (true for the home side, false for the
    away side) and the opposing team's name and abbreviation.  The
    player's fields and the context share no key, so nothing is lost in
    the combination. *)
Theorem game_records_layout (next : nat) (soup : node) (g : Game.t) (next' : nat) :
  Game.__init__ next soup = Ok (g, next') ->
  let home := Game.home g in
  let away := Game.away g in
  Game.records g
  = map (fun pr => pr ∪ game_context g home away true) (player_records home)
    ++ map (fun pr => pr ∪ game_context g away home false) (player_records away)
  /\ Forall (fun pr => pr ##ₘ game_context g home away true) (player_records home)
  /\ Forall (fun pr => pr ##ₘ game_context g away home false) (player_records away)
  /\ (forall is_home team opp,
        game_context g team opp is_home !! "Is Home" = Some (PBool is_home) /\
        game_context g team opp is_home !! "Team Name" = Some (PStr (Team.name team)) /\
        game_context g team opp is_home !! "Team Abbreviation"
          = Some (PStr (Team.abbreviation team)) /\
        game_context g team opp is_home !! "Opponent Name" = Some (PStr (Team.name opp)) /\
        game_context g team opp is_home !! "Opponent Abbreviation"
          = Some (PStr (Team.abbreviation opp)) /\
        game_context g team opp is_home !! "Time" = Some (PStr (Game.time g)) /\
        game_context g team opp is_home !! "Farenheit" = Some (of_int (Game.farenheit g)) /\
        game_context g team opp is_home !! "Precipitation"
          = Some (of_int (Game.precipitation g))).
Proof.
  intros (Hhome & Haway & _)%game_init_oids. cbv zeta.
  split; [|split; [|split]].
  - unfold Game.records. cbv zeta. rewrite app_nil_l, !add_team_records_eq.
    assert (Team.eq (Game.home g) (Game.home g) = true) as ->
      by apply Nat.eqb_refl.
    assert (Team.eq (Game.away g) (Game.home g) = false) as ->; [|done].
    unfold Team.eq. rewrite Hhome, Haway. apply Nat.eqb_neq. lia.
  - apply player_records_disjoint.
  - apply player_records_disjoint.
  - intros is_home team opp. repeat split; reflexivity.
Qed.

Lemma game_records_layout_witness :
  match Game.__init__ 0 (Sample.card [Sample.tbd_pitcher; Sample.cole]) with
  | Ok (g, _) =>
      Game.records g
      = map (fun pr => pr ∪ game_context g (Game.home g) (Game.away g) true)
            (player_records (Game.home g))
        ++ map (fun pr => pr ∪ game_context g (Game.away g) (Game.home g) false)
               (player_records (Game.away g))
  | Raise _ => False
  end.
Proof.
  destruct (Game.__init__ 0 (Sample.card [Sample.tbd_pitcher; Sample.cole]))
    as [[g n]|e] eqn:H.
  - exact (proj1 (game_records_layout 0 _ g n H)).
  - vm_compute in H. discriminate H.
Defined.

(** C3, as the code has it.  When no game card of the document carries
    the league marker, the top-level extraction ([DateGames.parse], and
    the constructor that runs it) fails with a [ValueError] whose message
    is "No games discovered on this date.".  The extraction reads one
    section only, the first [lineups] element of the first top-level
    container that holds one: it fails in the same way when no container
    holds such a section and when that section holds no card with the
    marker, whatever cards the rest of the document holds; when that
    section holds a card with the marker, no failure of the extraction is
    that exception. *)
Theorem no_games_condition (scraped : node) :
  (league_cards scraped = [] -> reports_no_games scraped) /\
  (Forall (fun c => select_one (Class "lineups") c = None)
          (select (ChildOf "ccm-page" "container") scraped) ->
   reports_no_games scraped) /\
  (forall pre c rest section,
     select (ChildOf "ccm-page" "container") scraped = pre ++ c :: rest ->
     Forall (fun x => select_one (Class "lineups") x = None) pre ->
     select_one (Class "lineups") c = Some section ->
     (league_cards section = [] -> reports_no_games scraped) /\
     (league_cards section <> [] -> never_reports_no_games scraped)).
Proof.
  split; [|split].
  - intros H. by apply no_cards_found_reports, no_league_cards_no_games.
  - intros H. by apply no_cards_found_reports, find_in_none.
  - intros pre c rest section Hsel Hpre Hc.
    assert (DateGames._find_games scraped = league_cards section) as Hfind.
    { unfold DateGames._find_games. rewrite Hsel.
      rewrite (find_in_first _ _ _ _ Hpre Hc).
      apply validate_games_league_cards. }
    split; intros H.
    + apply no_cards_found_reports. by rewrite Hfind.
    + apply cards_found_never_reports. by rewrite Hfind.
Qed.

Lemma no_games_condition_witness :
  reports_no_games Sample.offseason_page /\
  reports_no_games Sample.two_section_page /\
  never_reports_no_games Sample.malformed_page.
Proof.
  split; [|split].
  - apply (proj1 (no_games_condition Sample.offseason_page)).
    vm_compute; reflexivity.
  - apply (proj1 (proj2 (proj2 (no_games_condition Sample.two_section_page))
             [] (Sample.div ["container"] [Sample.div ["lineups"] [Sample.promo_card]])
             [Sample.div ["container"]
                [Sample.div ["lineups"]
                   [Sample.card [Sample.tbd_pitcher; Sample.cole]]]]
             (Sample.div ["lineups"] [Sample.promo_card])
             ltac:(vm_compute; reflexivity) ltac:(constructor)
             ltac:(vm_compute; reflexivity))).
    vm_compute; reflexivity.
  - apply (proj2 (proj2 (proj2 (no_games_condition Sample.malformed_page))
             [Sample.div ["container"] [Sample.text "Navigation"]]
             (Sample.div ["container"] [Sample.div ["lineups"] [Sample.card []]])
             []
             (Sample.div ["lineups"] [Sample.card []])
             ltac:(vm_compute; reflexivity)
             ltac:(repeat constructor)
             ltac:(vm_compute; reflexivity))).
    vm_compute; discriminate.
Defined.

(** C3, as the specification states it, fails on both counts.  A document
    whose first lineups section holds no valid card while a later one
    does has a card with the league marker, and the extraction raises the
    no-games exception all the same.  And a document whose only valid
    card has a pitcher row without player regions makes the extraction
    raise a [ValueError], the class of the no-games failure, so the class
    does not tell the two apart. *)
Lemma no_games_claim_fails :
  league_cards Sample.two_section_page <> [] /\
  DateGames.__init__ (lit "2021-03-17") Sample.two_section_page 0 [] true
  = Raise (ValueError (Text "No games discovered on this date.")) /\
  ~ no_games_only_without_cards /\
  league_cards Sample.malformed_page <> [] /\
  DateGames.__init__ (lit "2021-03-17") Sample.malformed_page 0 [] true
  = Raise (ValueError (Text "not enough values to unpack (expected 2, got 0)")) /\
  ~ no_games_has_own_class.
Proof.
  assert (league_cards Sample.two_section_page <> []) as Hcards2
    by (vm_compute; discriminate).
  assert (DateGames.__init__ (lit "2021-03-17") Sample.two_section_page 0 [] true
          = Raise DateGames.no_games) as Hraise2 by (vm_compute; reflexivity).
  assert (league_cards Sample.malformed_page <> []) as Hcards
    by (vm_compute; discriminate).
  assert (DateGames.__init__ (lit "2021-03-17") Sample.malformed_page 0 [] true
          = Raise (ValueError
                     (Text "not enough values to unpack (expected 2, got 0)")))
    as Hraise by (vm_compute; reflexivity).
  split; [exact Hcards2|]. split; [exact Hraise2|]. split.
  { intros Hclaim. by apply (Hclaim _ _ _ _ Hcards2 Hraise2). }
  split; [exact Hcards|]. split; [exact Hraise|].
  intros Hclaim. by apply (Hclaim _ _ _ _ _ Hcards Hraise).
Qed.

(** ** Further properties of the code *)

(** X1. [extract_int] never returns a negative number: a sign in front of
    the digits is not read, and a text that starts with a minus sign gives
    what the text without it gives. *)
Theorem extract_int_never_negative (text : pystr) (z : Z) :
  extract_int text = Ok (Some z) ->
  (0 <= z)%Z /\ extract_int (ch "-" :: text) = Ok (Some z).
Proof.
  intros H. split; [|exact H].
  destruct (no_digit_or_first_run text) as [Hnd|[run Hrun]].
  - rewrite (extract_int_no_digit _ Hnd) in H. discriminate H.
  - rewrite (extract_int_first_run _ _ Hrun) in H. simplify_eq.
    destruct Hrun as (pre & post & _ & _ & _ & Hd & _). by apply decimal_nonneg.
Qed.

Lemma extract_int_never_negative_witness :
  extract_int (lit "-5 F") = Ok (Some 5%Z).
Proof.
  apply (extract_int_never_negative (lit "5 F") 5). vm_compute; reflexivity.
Defined.

(** X2. When [Team._parse_abbreviation] succeeds, the identity region has
    a link with an [href]; the abbreviation is the upper-cased text of the
    [href] after its last slash (the whole [href] when it has none), so it
    holds no slash and upper-casing it again changes nothing.  Upper-casing
    is that of Unicode, which can lengthen the text. *)
Theorem abbreviation_is_last_segment (container : node) (abbr : pystr) :
  Team._parse_abbreviation container = Ok abbr ->
  exists a link pre seg,
    select_one (Name "a") container = Some a /\
    attr "href" a = Some link /\
    link = pre ++ seg /\
    (pre = [] \/ exists pre', pre = Py.snoc pre' (ch "/")) /\
    lacks_char (ch "/") seg /\
    abbr = Py.upper seg /\
    lacks_char (ch "/") abbr /\
    Py.upper abbr = abbr.
Proof.
  unfold Team._parse_abbreviation. intros H.
  inv_bind H as a Ha. apply deref_Ok in Ha.
  destruct (attr "href" a) as [link|] eqn:Hhref; [|discriminate H].
  inv_bind H as seg Hseg. simplify_eq. apply index_last_Ok in Hseg.
  destruct (join_last (ch "/") _ _ Hseg) as (pre & Hjoin & Hpre).
  unfold Py.split in *. rewrite join_split_from, app_nil_l_str in Hjoin.
  assert (lacks_char (ch "/") seg) as Hlacks.
  { pose proof (split_from_lacks (ch "/") link [] eq_refl) as Hall.
    rewrite Forall_forall in Hall. apply Hall.
    apply last_Some in Hseg as [l' ->]. apply elem_of_app. right.
    by apply list_elem_of_singleton. }
  exists a, link, pre, seg. repeat split; try done.
  - by apply upper_lacks_slash.
  - apply upper_upper.
Qed.

Lemma abbreviation_is_last_segment_witness :
  (exists a link pre seg,
     select_one (Name "a") (Sample.ids "/teams/nyy" "Yankees") = Some a /\
     attr "href" a = Some link /\
     link = pre ++ seg /\
     (pre = [] \/ exists pre', pre = Py.snoc pre' (ch "/")) /\
     lacks_char (ch "/") seg /\
     lit "NYY" = Py.upper seg /\
     lacks_char (ch "/") (lit "NYY") /\
     Py.upper (lit "NYY") = lit "NYY") /\
  Py.upper (lit "SS") = lit "SS".
Proof.
  split.
  - apply (abbreviation_is_last_segment (Sample.ids "/teams/nyy" "Yankees")
             (lit "NYY")).
    vm_compute; reflexivity.
  - destruct (abbreviation_is_last_segment Sample.sharp_s_ids (lit "SS")
                ltac:(vm_compute; reflexivity))
      as (a & link & pre & seg & _ & _ & _ & _ & _ & _ & _ & H).
    exact H.
Defined.

(** X3. Every line [Player._clean_player] returns is non-empty, neither
    starts nor ends with white space, and holds no line boundary; it
    returns no line at all exactly when the text is empty or white space
    only. *)
Theorem clean_player_trimmed_lines (p_str : pystr) :
  Forall (fun l => trimmed l /\ single_line l) (Player._clean_player p_str) /\
  (Player._clean_player p_str = []
   <-> Py.str_forall Py.isspace_char p_str = true).
Proof. split; [apply clean_player_lines|apply clean_player_nil]. Qed.

(** X4. When identity parsing succeeds the region has a link element; the
    name is the trimmed text of the first [desktop-name] element inside
    the link when there is one (whatever else the link holds) and of the
    link otherwise, so it neither starts nor ends with white space (it can
    be empty); the link has a [data-mlb] attribute whose value is numeric,
    and the league ID is the integer it denotes. *)
Theorem player_identity (container : node) (name : pystr) (z : Z) :
  Player.parse container = Ok (name, z) ->
  exists a v,
    select_one (Name "a") container = Some a /\
    (forall span, select_one (Class "desktop-name") a = Some span ->
       name = Py.strip (get_text span)) /\
    (select_one (Class "desktop-name") a = None ->
       name = Py.strip (get_text a)) /\
    (forall c rest, name = c :: rest -> Py.isspace_char c = false) /\
    (forall front c, name = front ++ [c] -> Py.isspace_char c = false) /\
    attr "data-mlb" a = Some v /\
    numeric v z.
Proof.
  intros (a & Ha & Hname & Hid)%player_parse_inv.
  destruct (attr "data-mlb" a) as [v|] eqn:Hv; [|discriminate Hid].
  apply int_of_str_numeric in Hid. exists a, v.
  assert (Py.strip name = name) as Htrim
    by (rewrite Hname; apply strip_strip).
  destruct (trimmed_ends _ Htrim) as [Hfirst Hlast].
  unfold name_source in Hname. repeat split; try done.
  - intros span Hspan. by rewrite Hspan in Hname.
  - intros Hnone. by rewrite Hnone in Hname.
Qed.

Lemma player_identity_witness :
  exists a v,
    select_one (Name "a") Sample.cole = Some a /\
    attr "data-mlb" a = Some v /\
    numeric v 543037%Z.
Proof.
  destruct (player_identity Sample.cole (lit "Gerrit Cole") 543037
              ltac:(vm_compute; reflexivity))
    as (a & v & Ha & _ & _ & _ & _ & Hv & Hz).
  exists a, v. done.
Defined.

(** X5. A pitcher that was built is of one of two shapes.  Either the
    region's text contains "TBD" and the pitcher is the placeholder with
    every field absent; or it does not, and then name and league ID are
    those of identity parsing, the handedness is the last cleaned line
    of the region without its parentheses, and the position is "P". *)
Theorem pitcher_all_or_nothing (soup : node) (p : Pitcher.t) :
  Pitcher.__init__ soup = Ok p ->
  (occurs_in (lit "TBD") (get_text soup) /\ p = placeholder) \/
  (~ occurs_in (lit "TBD") (get_text soup) /\
   exists name z stat_line hand,
     Player.parse soup = Ok (name, z) /\
     last (Player._clean_player (get_text soup)) = Some stat_line /\
     hand = Py.remove_char (ch ")") (Py.remove_char (ch "(") stat_line) /\
     lacks_char (ch "(") hand /\ lacks_char (ch ")") hand /\
     p = Pitcher.mk (Player.mk (Some name) (Some hand) (Some z)) (Some (lit "P"))).
Proof.
  unfold Pitcher.__init__, Pitcher._is_valid_pitcher. intros H.
  destruct (Py.contains (lit "TBD") (get_text soup)) eqn:Htbd; simpl in H.
  - left. simplify_eq. split; [by apply contains_iff|done].
  - right. split.
    { intros Hin%contains_iff. congruence. }
    inv_bind H as [[[name hand] z] position] Hparse. simplify_eq.
    unfold Pitcher.parse in Hparse.
    inv_bind Hparse as [name' z'] Hplayer.
    inv_bind Hparse as stat_line Hstat. simplify_eq.
    apply index_last_Ok in Hstat.
    exists name, z, stat_line, (Pitcher._parse_handedness stat_line).
    unfold Pitcher._parse_handedness. repeat split; try done.
    + apply remove_char_keeps, remove_char_lacks.
    + apply remove_char_lacks.
Qed.

Lemma pitcher_all_or_nothing_witness :
  (occurs_in (lit "TBD") (get_text Sample.cole) /\
   Pitcher.mk (Player.mk (Some (lit "Gerrit Cole")) (Some (lit "R")) (Some 543037%Z))
              (Some (lit "P")) = placeholder) \/
  (~ occurs_in (lit "TBD") (get_text Sample.cole) /\
   exists name z stat_line hand,
     Player.parse Sample.cole = Ok (name, z) /\
     last (Player._clean_player (get_text Sample.cole)) = Some stat_line /\
     hand = Py.remove_char (ch ")") (Py.remove_char (ch "(") stat_line) /\
     lacks_char (ch "(") hand /\ lacks_char (ch ")") hand /\
     Pitcher.mk (Player.mk (Some (lit "Gerrit Cole")) (Some (lit "R")) (Some 543037%Z))
                (Some (lit "P"))
     = Pitcher.mk (Player.mk (Some name) (Some hand) (Some z)) (Some (lit "P"))).
Proof.
  apply (pitcher_all_or_nothing Sample.cole). vm_compute; reflexivity.
Defined.

(** X6. A batter that was built comes from a region whose last cleaned
    line is two non-empty tokens separated by exactly one space: the
    first token without its parentheses is the handedness and the second
    is the position, which holds no space; the order is what
    [extract_int] reads in the first cleaned line, and name and league ID
    are those of identity parsing. *)
Theorem batter_fields (soup : node) (b : Batter.t) :
  Batter.__init__ soup = Ok b ->
  exists order_line stat_line hand_str hand name z,
    head (Player._clean_player (get_text soup)) = Some order_line /\
    last (Player._clean_player (get_text soup)) = Some stat_line /\
    stat_line = hand_str ++ ch " " :: Batter.position b /\
    hand_str <> [] /\ Batter.position b <> [] /\
    lacks_char (ch " ") hand_str /\ lacks_char (ch " ") (Batter.position b) /\
    hand = Py.remove_char (ch ")") (Py.remove_char (ch "(") hand_str) /\
    lacks_char (ch "(") hand /\ lacks_char (ch ")") hand /\
    Player.parse soup = Ok (name, z) /\
    Batter.base b = Player.mk (Some name) (Some hand) (Some z) /\
    extract_int order_line = Ok (Batter.order b).
Proof.
  unfold Batter.__init__. intros H.
  inv_bind H as [[[[order name] hand] z] position] Hparse. simplify_eq.
  unfold Batter.parse in Hparse.
  inv_bind Hparse as stat_line Hstat.
  inv_bind Hparse as [hand_str pos_str] Hsplit.
  inv_bind Hparse as [name' z'] Hplayer.
  inv_bind Hparse as order_line Horder_line.
  inv_bind Hparse as order' Horder. simplify_eq.
  apply index_last_Ok in Hstat. apply unpack2_Ok in Hsplit.
  apply index0_Ok in Horder_line as [rest Hlines].
  assert (stat_line = hand_str ++ ch " " :: pos_str) as Heq.
  { pose proof (join_split_from (ch " ") stat_line []) as Hj.
    unfold Py.split in Hsplit. rewrite Hsplit in Hj.
    by rewrite app_nil_l_str in Hj. }
  assert (lacks_char (ch " ") hand_str /\ lacks_char (ch " ") pos_str) as [Hh Hp].
  { pose proof (split_from_lacks (ch " ") stat_line [] eq_refl) as Hall.
    unfold Py.split in Hsplit. rewrite Hsplit in Hall.
    by inversion Hall as [|? ? ? Htl]; inversion Htl. }
  assert (trimmed stat_line) as [_ Htrim].
  { pose proof (clean_player_lines (get_text soup)) as Hall.
    rewrite Forall_forall in Hall. apply Hall.
    apply last_Some in Hstat as [l' ->]. apply elem_of_app. right.
    by apply list_elem_of_singleton. }
  destruct (trimmed_ends _ Htrim) as [Hfirst Hlast].
  exists order_line, stat_line, hand_str, (Batter._parse_handedness hand_str),
    name, z.
  unfold Batter._parse_handedness, Batter._parse_position. simpl.
  rewrite Hlines. repeat split; try done.
  - by rewrite <- Hlines.
  - intros ->. rewrite app_nil_l_str in Heq. by specialize (Hfirst _ _ Heq).
  - intros ->. by specialize (Hlast hand_str (ch " ") Heq).
  - apply remove_char_keeps, remove_char_lacks.
  - apply remove_char_lacks.
Qed.

Lemma batter_fields_witness :
  exists b order_line stat_line hand_str hand name z,
    Batter.__init__ Sample.lemahieu = Ok b /\
    head (Player._clean_player (get_text Sample.lemahieu)) = Some order_line /\
    last (Player._clean_player (get_text Sample.lemahieu)) = Some stat_line /\
    stat_line = hand_str ++ ch " " :: Batter.position b /\
    hand = Py.remove_char (ch ")") (Py.remove_char (ch "(") hand_str) /\
    Batter.base b = Player.mk (Some name) (Some hand) (Some z).
Proof.
  destruct (Batter.__init__ Sample.lemahieu) as [b|e] eqn:Hb;
    [|vm_compute in Hb; discriminate Hb].
  destruct (batter_fields Sample.lemahieu b Hb)
    as (order_line & stat_line & hand_str & hand & name & z & H1 & H2 & H3
        & _ & _ & _ & _ & H4 & _ & _ & _ & H5 & _).
  exists b, order_line, stat_line, hand_str, hand, name, z. done.
Defined.

(** X7. Building a batter raises [IndexError] exactly when the region's
    text is empty or white space only; building a pitcher raises it
    exactly when the text is such and identity parsing succeeds. *)
Theorem index_error_iff_blank (soup : node) :
  (Batter.__init__ soup = Raise IndexError <-> blank (get_text soup) = true) /\
  (Pitcher.__init__ soup = Raise IndexError
   <-> blank (get_text soup) = true /\
       exists name z, Player.parse soup = Ok (name, z)).
Proof.
  split.
  - unfold Batter.__init__, Batter.parse. rewrite <- clean_player_nil.
    destruct (Player._clean_player (get_text soup)) as [|l ls] eqn:Hlines.
    { done. }
    split; [|done]. intros H. exfalso.
    destruct (last_is_Some (l :: ls)) as [_ [stat Hstat]]; [done|].
    unfold Py.index_last in H. rewrite Hstat in H. simpl in H.
    destruct (Py.unpack2 (Py.split (ch " ") stat)) as [[hand_str pos_str]|e] eqn:Hu;
      simpl in H.
    + destruct (Player.parse soup) as [[name z]|e] eqn:Hp; simpl in H.
      * unfold Batter._parse_order in H.
        destruct (extract_int_total l) as [o Ho]. rewrite Ho in H.
        simpl in H. discriminate H.
      * simplify_eq.
        destruct (player_parse_raises _ _ Hp) as [?|[?|[? ?]]]; discriminate.
    + simplify_eq. by destruct (safe_unpack2_classes _ _ Hu).
  - unfold Pitcher.__init__, Pitcher._is_valid_pitcher, Pitcher.parse.
    rewrite <- clean_player_nil. split.
    + destruct (Py.contains (lit "TBD") (get_text soup)); simpl; [done|].
      destruct (Player.parse soup) as [[name z]|e] eqn:Hp; simpl.
      * unfold Py.index_last.
        destruct (Player._clean_player (get_text soup)) as [|l ls] eqn:Hlines.
        { eauto. }
        destruct (last_is_Some (l :: ls)) as [_ [stat Hstat]]; [done|].
        rewrite Hstat. simpl. done.
      * intros H. simplify_eq.
        destruct (player_parse_raises _ _ Hp) as [?|[?|[? ?]]]; discriminate.
    + intros (Hblank & name & z & Hp).
      rewrite (blank_not_tbd _ (proj1 (clean_player_nil _) Hblank)).
      simpl. rewrite Hp, Hblank. done.
Qed.

Lemma clean_player_trimmed_lines_witness :
  Player._clean_player (get_text Sample.blank_player) = [] /\
  Player._clean_player (get_text Sample.nbsp_player) = [] /\
  Forall (fun l => trimmed l /\ single_line l)
         (Player._clean_player (get_text Sample.lemahieu)).
Proof.
  split; [|split].
  - apply (proj2 (clean_player_trimmed_lines (get_text Sample.blank_player))).
    vm_compute; reflexivity.
  - apply (proj2 (clean_player_trimmed_lines (get_text Sample.nbsp_player))).
    vm_compute; reflexivity.
  - apply (proj1 (clean_player_trimmed_lines (get_text Sample.lemahieu))).
Defined.

Lemma index_error_iff_blank_witness :
  Batter.__init__ Sample.blank_player = Raise IndexError /\
  Batter.__init__ Sample.nbsp_player = Raise IndexError.
Proof.
  split.
  - apply (proj1 (index_error_iff_blank Sample.blank_player)).
    vm_compute; reflexivity.
  - apply (proj1 (index_error_iff_blank Sample.nbsp_player)).
    vm_compute; reflexivity.
Defined.

(** X8. For a rotation region without the unreleased-lineup marker,
    [Team._parse_rotation] follows the batters of the player regions in
    document order: the first batter that cannot be built makes it raise
    that batter's exception, and when all are built and there is at least
    one it returns them followed by the last one once more, so the result
    has one entry more than there are player regions and never exactly
    one entry. *)
Theorem released_rotation_follows_batters (container : node) :
  ~ contains_any_case (lit "no lineup released") (get_text container) ->
  (forall e,
     mapM Batter.__init__ (select (Class "player") container) = Raise e ->
     Team._parse_rotation container = Raise e) /\
  (forall bs b,
     mapM Batter.__init__ (select (Class "player") container) = Ok (bs ++ [b]) ->
     Team._parse_rotation container = Ok (bs ++ [b; b])) /\
  (forall r,
     Team._parse_rotation container = Ok r ->
     length r = length (select (Class "player") container) + 1 /\
     length r <> 1).
Proof.
  intros Hvalid%valid_rotation_iff. unfold Team._parse_rotation.
  rewrite Hvalid, rotation_loop_mapM. split; [|split].
  - by intros e ->.
  - intros bs b ->. simpl. rewrite last_snoc. by rewrite <- app_assoc.
  - intros r H.
    destruct (mapM Batter.__init__ (select (Class "player") container))
      as [bs|e] eqn:Hbs; simpl in H; [|done].
    destruct (last bs) as [b|] eqn:Hlast; [|done]. simplify_eq.
    apply mapM_length in Hbs. rewrite <- Hbs, length_app. simpl.
    apply last_Some in Hlast as [bs' ->]. rewrite length_app. simpl. lia.
Qed.

Lemma released_rotation_follows_batters_witness :
  length (select (Class "player") Sample.released_rotation) = 2 /\
  exists r,
    Team._parse_rotation Sample.released_rotation = Ok r /\
    length r = length (select (Class "player") Sample.released_rotation) + 1.
Proof.
  split; [vm_compute; reflexivity|].
  destruct (Team._parse_rotation Sample.released_rotation) as [r|e] eqn:Hr;
    [|vm_compute in Hr; discriminate Hr].
  exists r. split; [reflexivity|].
  apply (proj2 (proj2 (released_rotation_follows_batters
                         Sample.released_rotation
                         ltac:(apply valid_rotation_iff; vm_compute; reflexivity)))
           r Hr).
Defined.



(** X10. [DateGames._find_games] returns only elements of class
    [lineup-col] that carry the [data-league] attribute.  It looks at the
    first container that has a [lineups] section and at no other: the
    result is the valid cards of that section, also when it has none and
    a later container has some; without such a container the result is
    empty. *)
Theorem find_games_first_section (soup : node) :
  Forall (fun card => has_class "lineup-col" card = true /\
                      is_Some (attr "data-league" card))
         (DateGames._find_games soup) /\
  (forall pre c rest section,
     select (ChildOf "ccm-page" "container") soup = pre ++ c :: rest ->
     Forall (fun x => select_one (Class "lineups") x = None) pre ->
     select_one (Class "lineups") c = Some section ->
     DateGames._find_games soup
     = DateGames._validate_games (select (Class "lineup-col") section)) /\
  (Forall (fun x => select_one (Class "lineups") x = None)
          (select (ChildOf "ccm-page" "container") soup) ->
   DateGames._find_games soup = []).
Proof.
  unfold DateGames._find_games. split; [apply find_in_cards|]. split.
  - intros pre c rest section -> Hpre Hc. by apply find_in_first.
  - apply find_in_none.
Qed.

Lemma find_games_first_section_witness :
  DateGames._find_games Sample.two_section_page
  = DateGames._validate_games
      (select (Class "lineup-col") (Sample.div ["lineups"] [Sample.promo_card])).
Proof.
  apply (proj1 (proj2 (find_games_first_section Sample.two_section_page))
           [] (Sample.div ["container"] [Sample.div ["lineups"] [Sample.promo_card]])
           [Sample.div ["container"]
              [Sample.div ["lineups"]
                 [Sample.card [Sample.tbd_pitcher; Sample.cole]]]]).
  - vm_compute; reflexivity.
  - constructor.
  - vm_compute; reflexivity.
Defined.

(** X11. The record cache is never refreshed.  Take a date that was
    built, call [records()], then store other markup in the object (or
    leave it as it is) and run [parse] again, successfully: [parse]
    returns the games of the markup it read, but the object is left as it
    was, with the games it had, and [records()] still returns the rows of
    the first call, of which there is at least one. *)
Theorem parse_keeps_cache (today : pystr) (scraped : node) (next : nat)
    (date_str : pystr) (dg : DateGames.t) (next' : nat)
    (raw : node) (n : nat) (games : list Game.t) (self' : DateGames.t)
    (n' : nat) :
  DateGames.__init__ today scraped next date_str true = Ok (dg, next') ->
  let cached := DateGames.records dg in
  DateGames.parse n (set_raw cached.2 raw) = Ok (games, self', n') ->
  cached.1 <> [] /\
  self' = set_raw cached.2 raw /\
  DateGames.games self' = DateGames.games dg /\
  (DateGames.records self').1 = cached.1 /\
  Forall2 (fun card g => exists k, Game.__init__ k card = Ok (g, S (S k)))
          (DateGames._find_games raw) games.
Proof.
  intros Hinit cached Hparse.
  destruct (records_nonempty _ _ _ _ _ _ Hinit) as [r [rs Hrows]].
  apply init_parsed in Hinit as (Hgames & Hcache & _).
  assert (cached = (r :: rs,
                    DateGames.mk (DateGames.date dg) (DateGames.games dg)
                                 (r :: rs) (DateGames.raw dg))) as Hcached.
  { subst cached. unfold DateGames.records in *. rewrite Hcache in *.
    cbn [fst] in Hrows. by rewrite Hrows. }
  rewrite Hcached in *. clear Hcached cached. cbn [fst snd] in *.
  unfold DateGames.parse, set_raw in Hparse.
  cbn [DateGames.raw DateGames.games DateGames.date DateGames._records] in Hparse.
  destruct (DateGames._find_games raw) as [|gc gcs] eqn:Hfind; [done|].
  inv_bind Hparse as [games' k] Hscrape.
  destruct (scrape_games_spec _ _ _ _ Hscrape) as [Hall _].
  destruct (DateGames.games dg) as [|g gs] eqn:Hg; [done|]. simplify_eq.
  repeat split; done.
Qed.

Lemma parse_keeps_cache_witness :
  exists dg next' games self' n',
    DateGames.__init__ (lit "2021-03-17") Sample.good_page 0 [] true
    = Ok (dg, next') /\
    DateGames.parse 0 (set_raw (DateGames.records dg).2 Sample.later_page)
    = Ok (games, self', n') /\
    DateGames.games self' = DateGames.games dg /\
    (DateGames.records self').1 = (DateGames.records dg).1.
Proof.
  destruct (DateGames.__init__ (lit "2021-03-17") Sample.good_page 0 [] true)
    as [[dg nx]|e] eqn:H; [|vm_compute in H; discriminate H].
  destruct (DateGames._scrape_games 0 (DateGames._find_games Sample.later_page))
    as [[games n']|e] eqn:Hs; [|vm_compute in Hs; discriminate Hs].
  destruct (parse_succeeds 0 (set_raw (DateGames.records dg).2 Sample.later_page)
              games n' ltac:(vm_compute; discriminate) Hs) as [self' Hp].
  exists dg, nx, games, self', n'. split; [reflexivity|]. split; [exact Hp|].
  by destruct (parse_keeps_cache _ _ _ _ _ _ _ _ _ _ _ H Hp)
    as (_ & _ & Hgames & Hrows & _).
Defined.

(** X12. [Game._extract_object_html] succeeds exactly on a card that has
    the expected layout, and then returns the bundle of its regions: the
    home identity is the first column of the header's first row, the time
    the second and the away identity the last; the pitchers are the two
    player regions of the header's second row and the rotations the two
    columns of the body, home first; temperature and precipitation are
    the first two [div] elements of the footer's [col-8] column. *)
Theorem object_html_layout (soup : node) (oh : Game.object_html) :
  Game._extract_object_html soup = Ok oh
  <-> exists cr, card_layout soup cr /\ oh = bundle cr.
Proof. apply extract_object_html_iff. Qed.

(** X13. Every record [records()] returns for a date that was built is
    flat and complete: it maps "Date" to the object's date, it has the
    fields ID, Name, Handedness, Position, Team Name, Team Abbreviation,
    Time, Farenheit, Precipitation, Is Home, Opponent Name, Opponent
    Abbreviation and Date, and it has no other field except Order, which
    the records of batters have; and there is at least one record. *)
Theorem records_are_full (today : pystr) (scraped : node) (next : nat)
    (date_str : pystr) (dg : DateGames.t) (next' : nat) :
  DateGames.__init__ today scraped next date_str true = Ok (dg, next') ->
  (DateGames.records dg).1 <> [] /\
  Forall (full_record (DateGames.date dg)) (DateGames.records dg).1.
Proof.
  intros Hinit. split.
  - destruct (records_nonempty _ _ _ _ _ _ Hinit) as (r & rs & ->). done.
  - apply init_parsed in Hinit as (_ & Hcache & _).
    unfold DateGames.records. rewrite Hcache. cbn [fst]. apply all_rows_full.
Qed.

Lemma records_are_full_witness :
  exists dg next',
    DateGames.__init__ (lit "2021-03-17") Sample.good_page 0 [] true = Ok (dg, next') /\
    Forall (full_record (DateGames.date dg)) (DateGames.records dg).1.
Proof.
  destruct (DateGames.__init__ (lit "2021-03-17") Sample.good_page 0 [] true)
    as [[dg nx]|e] eqn:H; [|vm_compute in H; discriminate H].
  exists dg, nx. split; [reflexivity|].
  apply (proj2 (records_are_full _ _ _ _ _ _ H)).
Defined.

(** X14. Every field of a game that was built comes from the region of
    the card laid out for it: the home team's name and abbreviation from
    the first column of the header's first row, its pitcher from the
    first player region of the second row and its rotation from the first
    column of the body; the away team's from the last column, the second
    player region and the second column; the time is the trimmed text of
    the last [div] of the second column; temperature and precipitation
    are what [extract_int] reads in the first and second [div] of the
    weather column. *)
Theorem game_fields_provenance (next : nat) (soup : node) (g : Game.t)
    (next' : nat) :
  Game.__init__ next soup = Ok (g, next') ->
  exists cr,
    card_layout soup cr /\
    Team._parse_name (home_ids cr) = Ok (Team.name (Game.home g)) /\
    Team._parse_abbreviation (home_ids cr)
      = Ok (Team.abbreviation (Game.home g)) /\
    Pitcher.__init__ (home_pitcher cr) = Ok (Team.pitcher (Game.home g)) /\
    Team._parse_rotation (home_rotation cr) = Ok (Team.rotation (Game.home g)) /\
    Team._parse_name (away_ids cr) = Ok (Team.name (Game.away g)) /\
    Team._parse_abbreviation (away_ids cr)
      = Ok (Team.abbreviation (Game.away g)) /\
    Pitcher.__init__ (away_pitcher cr) = Ok (Team.pitcher (Game.away g)) /\
    Team._parse_rotation (away_rotation cr) = Ok (Team.rotation (Game.away g)) /\
    (exists d, last (select (Name "div") (time_col cr)) = Some d /\
               Game.time g = Py.strip (get_text d)) /\
    Py.strip (Game.time g) = Game.time g /\
    extract_int (get_text (farenheit_div cr)) = Ok (Game.farenheit g) /\
    extract_int (get_text (precipitation_div cr)) = Ok (Game.precipitation g).
Proof.
  intros (oh & Hoh & Hhome & Haway & Htime & Hfar & Hprec)%game_init_inv.
  apply extract_object_html_iff in Hoh as (cr & Hlayout & ->).
  apply team_init_inv in Hhome as (Hn1 & Ha1 & Hp1 & Hr1).
  apply team_init_inv in Haway as (Hn2 & Ha2 & Hp2 & Hr2).
  unfold Game._parse_time in Htime. cbn [bundle Game.oh_game Game.gd_time] in Htime.
  inv_bind Htime as d Hd. apply index_last_Ok in Hd.
  injection Htime as Htime.
  exists cr. repeat split; try done.
  - by exists d.
  - rewrite <- Htime. apply strip_strip.
Qed.

Lemma game_fields_provenance_witness :
  match Game.__init__ 0 (Sample.card [Sample.tbd_pitcher; Sample.cole]) with
  | Ok (g, _) =>
      exists cr,
        card_layout (Sample.card [Sample.tbd_pitcher; Sample.cole]) cr /\
        Team._parse_name (home_ids cr) = Ok (Team.name (Game.home g)) /\
        Team._parse_name (away_ids cr) = Ok (Team.name (Game.away g)) /\
        extract_int (get_text (farenheit_div cr)) = Ok (Game.farenheit g)
  | Raise _ => False
  end.
Proof.
  destruct (Game.__init__ 0 (Sample.card [Sample.tbd_pitcher; Sample.cole]))
    as [[g nx]|e] eqn:H; [|vm_compute in H; discriminate H].
  destruct (game_fields_provenance 0 _ g nx H)
    as (cr & Hl & Hn1 & _ & _ & _ & Hn2 & _ & _ & _ & _ & _ & Hf & _).
  exists cr. done.
Defined.

Lemma object_html_layout_witness :
  exists oh cr,
    Game._extract_object_html (Sample.card [Sample.tbd_pitcher; Sample.cole])
    = Ok oh /\
    card_layout (Sample.card [Sample.tbd_pitcher; Sample.cole]) cr /\
    oh = bundle cr.
Proof.
  destruct (Game._extract_object_html
              (Sample.card [Sample.tbd_pitcher; Sample.cole]))
    as [oh|e] eqn:H; [|vm_compute in H; discriminate H].
  destruct (proj1 (object_html_layout _ oh) H) as (cr & Hl & Hb).
  exists oh, cr. done.
Defined.




